(** * IAM resource limits (rule E2508): a shallow embedding of
    [src/cfnlint/rules/resources/iam/Limits.py]

    The rule walks the IAM resources of a CloudFormation template and reports
    the ones that breach a service limit.  The template object ([cfn]) is a
    collaborator of the rule: it answers [get_resources] and
    [get_object_without_conditions].  Python values are modelled by the
    inductive type [value]; dictionaries are association lists in insertion
    order (the iteration order of [dict.items()] from Python 3.7 on); the two
    calls to the template are recorded in a log next to the result, and a
    raised exception is a left injection.  What a resource has under
    [Properties] is any value, as in the code, which tests it with [in]
    whatever it is; the messages of the exceptions of the interpreter are
    those of CPython 3.7.

    The functions of the rule are given twice: as functions to the list of
    violations, and, in the module [Store], with the lists they build as
    objects of a store that calls share; the second refines the first. *)

From Stdlib Require Import List String Ascii ZArith Bool Arith Lia.
From Stdlib Require Import Numbers.DecimalString.
Import ListNotations.

Local Open Scope list_scope.
Local Open Scope string_scope.

(** ** Python values *)

Set Warnings "-register-all".

(** [datetime.date] and its subclass [datetime.datetime] (naive).  The fields
    are the ones [isoformat] prints. *)
Record date := mkDate { year : nat; month : nat; day : nat }.

Record time := mkTime { hour : nat; minute : nat; second : nat; microsecond : nat }.

(** A value of the template: what the YAML/JSON decoder builds.  [VFloat]
    carries the text [float.__repr__] gives, the only thing the serializer
    asks of a float; [VObject] is an instance of any other class, known by
    its class name: a class the serializer does not know and that has
    neither a membership test nor a subscript.  A character of a [string] is
    a code point below 256. *)
Inductive value :=
| VNone
| VBool (b : bool)
| VInt (z : Z)
| VFloat (repr : string)
| VStr (s : string)
| VList (l : list value)
| VDict (d : list (string * value))
| VDate (d : date)
| VDateTime (d : date) (t : time)
| VObject (cls : string).

Definition dict := list (string * value).

Section ValueInduction.
Variable P : value -> Prop.
Hypothesis HNone : P VNone.
Hypothesis HBool : forall b, P (VBool b).
Hypothesis HInt : forall z, P (VInt z).
Hypothesis HFloat : forall r, P (VFloat r).
Hypothesis HStr : forall s, P (VStr s).
Hypothesis HList : forall l, Forall P l -> P (VList l).
Hypothesis HDict : forall d, Forall (fun kv => P (snd kv)) d -> P (VDict d).
Hypothesis HDate : forall d, P (VDate d).
Hypothesis HDateTime : forall d t, P (VDateTime d t).
Hypothesis HObject : forall c, P (VObject c).

End ValueInduction.

(** ** Exceptions *)

Inductive exn :=
| TypeError (msg : string)
| KeyError (key : string).

(** ** Dictionaries *)

(** [d.get(key)]: the value bound to [key], [None] when there is none. *)
Fixpoint dict_get (d : dict) (key : string) : option value :=
  match d with
  | [] => None
  | (k, v) :: r => if String.eqb k key then Some v else dict_get r key
  end.

(** [key in d]. *)
Definition dict_contains (key : string) (d : dict) : bool :=
  match dict_get d key with
  | Some _ => true
  | None => false
  end.

(** [d[key]]: raises [KeyError] when [key] is not bound. *)
Definition dict_subscript (d : dict) (key : string) : exn + value :=
  match dict_get d key with
  | Some v => inr v
  | None => inl (KeyError key)
  end.

(** ** Strings *)

Definition dquote : string := String "034"%char EmptyString.

(** [sep.join(parts)]. *)
Fixpoint join (sep : string) (parts : list string) : string :=
  match parts with
  | [] => ""
  | [p] => p
  | p :: rest => p ++ sep ++ join sep rest
  end.

(** ['%s' % v] for a boolean. *)
Definition str_of_bool (b : bool) : string :=
  if b then "True" else "False".

(** [template.format(arg)] for a template whose only replacement field is
    the positional field 0: every occurrence of the field is replaced by
    [arg], the rest is copied. *)
Fixpoint format (template arg : string) : string :=
  match template with
  | String "{" (String "0" (String "}" rest)) => arg ++ format rest arg
  | String c rest => String c (format rest arg)
  | EmptyString => EmptyString
  end.

(** [int.__repr__]. *)
Definition int_repr (z : Z) : string :=
  NilEmpty.string_of_int (Z.to_int z).

(** ['%0<width>d' % n] for a natural number. *)
Fixpoint zeros (n : nat) : string :=
  match n with
  | O => ""
  | S k => String "0" (zeros k)
  end.

Definition zero_pad (width n : nat) : string :=
  let digits := NilEmpty.string_of_uint (Nat.to_uint n) in
  zeros (width - String.length digits) ++ digits.

(** [date.isoformat()] and [datetime.isoformat()] (naive). *)
Definition date_isoformat (d : date) : string :=
  zero_pad 4 (year d) ++ "-" ++ zero_pad 2 (month d) ++ "-" ++ zero_pad 2 (day d).

Definition datetime_isoformat (d : date) (t : time) : string :=
  date_isoformat d ++ "T" ++ zero_pad 2 (hour t) ++ ":" ++ zero_pad 2 (minute t)
    ++ ":" ++ zero_pad 2 (second t)
    ++ (if Nat.eqb (microsecond t) 0 then "" else "." ++ zero_pad 6 (microsecond t)).

(** ** The template and the call log *)

Record property_set := mkPropertySet {
  Object : dict;
  Scenario : option (list (string * bool))
}.

(** A resource of the template: its type and what it has under the key
    [Properties], if it has the key.  The value is whatever the template
    holds there: a mapping in a well-formed template, but also [None] for a
    key left empty, or any other value. *)
Record ResourceDeclaration := mkResource {
  Type_ : string;
  Properties : option value
}.

(** The template object, as far as the rule uses it. *)
Record Template := mkTemplate {
  resources_by_type : string -> list (string * ResourceDeclaration);
  branches_of : value -> list property_set
}.

Inductive event :=
| GetResources (resource_type : string)
| GetObjectWithoutConditions (properties : value).

(** A computation of the rule: its result or the exception it raised, and
    the calls it made to the template, in order. *)
Definition M (A : Type) : Type := (exn + A) * list event.

Definition ret {A} (a : A) : M A := (inr a, []).

Definition raise {A} (e : exn) : M A := (inl e, []).

Definition bind {A B} (m : M A) (f : A -> M B) : M B :=
  match m with
  | (inl e, log) => (inl e, log)
  | (inr a, log) => let (r, log') := f a in (r, (log ++ log')%list)
  end.

Notation "x <- m ;; k" := (bind m (fun x => k))
  (at level 61, m at next level, right associativity).

Definition lift {A} (r : exn + A) : M A := (r, []).

Definition get_resources (cfn : Template) (resource_type : string)
  : M (list (string * ResourceDeclaration)) :=
  (inr (resources_by_type cfn resource_type), [GetResources resource_type]).

Definition get_object_without_conditions (cfn : Template) (properties : value)
  : M (list property_set) :=
  (inr (branches_of cfn properties), [GetObjectWithoutConditions properties]).

(** ** The [json] module, as [json.dumps(obj, default=f)] uses it *)

Definition hex_digit (n : nat) : ascii :=
  match n with
  | 0 => "0" | 1 => "1" | 2 => "2" | 3 => "3" | 4 => "4" | 5 => "5"
  | 6 => "6" | 7 => "7" | 8 => "8" | 9 => "9" | 10 => "a" | 11 => "b"
  | 12 => "c" | 13 => "d" | 14 => "e" | _ => "f"
  end%char.

(** The replacement of one character by [ESCAPE_ASCII]: the printable ASCII
    characters other than the quote and the backslash stand for themselves,
    the others are escaped. *)
Definition escape_char (c : ascii) : string :=
  let n := nat_of_ascii c in
  if Nat.eqb n 34 then String "092"%char dquote
  else if Nat.eqb n 92 then String "092"%char (String "092"%char EmptyString)
  else if Nat.eqb n 8 then String "092"%char "b"
  else if Nat.eqb n 12 then String "092"%char "f"
  else if Nat.eqb n 10 then String "092"%char "n"
  else if Nat.eqb n 13 then String "092"%char "r"
  else if Nat.eqb n 9 then String "092"%char "t"
  else if (Nat.leb 32 n && Nat.leb n 126)%bool then String c EmptyString
  else String "092"%char
         (String "u" (String "0" (String "0"
            (String (hex_digit (n / 16))
               (String (hex_digit (n mod 16)) EmptyString))))).

Fixpoint escape_ascii (s : string) : string :=
  match s with
  | EmptyString => EmptyString
  | String c rest => escape_char c ++ escape_ascii rest
  end.

Definition encode_basestring_ascii (s : string) : string :=
  dquote ++ escape_ascii s ++ dquote.

(** [json.dumps(o, default=default)] with the module's other defaults: the
    separators are [', '] and [': '], [default] is asked for the text of
    every object the encoder does not know, and its answer is encoded as a
    string.  The first exception of the traversal ends it. *)
Fixpoint json_dumps (default : value -> exn + string) (o : value)
  : exn + string :=
  match o with
  | VStr s => inr (encode_basestring_ascii s)
  | VNone => inr "null"
  | VBool true => inr "true"
  | VBool false => inr "false"
  | VInt z => inr (int_repr z)
  | VFloat repr => inr repr
  | VList l =>
      match l with
      | [] => inr "[]"
      | first :: others =>
          match json_dumps default first with
          | inl e => inl e
          | inr buf =>
              match
                (fix items (l : list value) : exn + string :=
                   match l with
                   | [] => inr ""
                   | x :: r =>
                       match json_dumps default x with
                       | inl e => inl e
                       | inr sx =>
                           match items r with
                           | inl e => inl e
                           | inr sr => inr (", " ++ sx ++ sr)
                           end
                       end
                   end) others
              with
              | inl e => inl e
              | inr tail => inr ("[" ++ buf ++ tail ++ "]")
              end
          end
      end
  | VDict d =>
      match d with
      | [] => inr "{}"
      | (k, v) :: others =>
          match json_dumps default v with
          | inl e => inl e
          | inr buf =>
              match
                (fix items (d : list (string * value)) : exn + string :=
                   match d with
                   | [] => inr ""
                   | (kx, x) :: r =>
                       match json_dumps default x with
                       | inl e => inl e
                       | inr sx =>
                           match items r with
                           | inl e => inl e
                           | inr sr =>
                               inr (", " ++ encode_basestring_ascii kx
                                         ++ ": " ++ sx ++ sr)
                           end
                       end
                   end) others
              with
              | inl e => inl e
              | inr tail =>
                  inr ("{" ++ encode_basestring_ascii k ++ ": " ++ buf
                           ++ tail ++ "}")
              end
          end
      end
  | VDate _ | VDateTime _ _ | VObject _ =>
      match default o with
      | inl e => inl e
      | inr s => inr (encode_basestring_ascii s)
      end
  end.

(** ** The rule *)

Record RuleMatch := mkRuleMatch {
  path : list string;
  message : string
}.

(** [obj.__class__.__name__]. *)
Definition class_name (obj : value) : string :=
  match obj with
  | VNone => "NoneType"
  | VBool _ => "bool"
  | VInt _ => "int"
  | VFloat _ => "float"
  | VStr _ => "str"
  | VList _ => "list"
  | VDict _ => "dict"
  | VDate _ => "date"
  | VDateTime _ _ => "datetime"
  | VObject cls => cls
  end.

Definition _serialize_date (obj : value) : exn + string :=
  match obj with
  | VDate d => inr (date_isoformat d)
  | VDateTime d t => inr (datetime_isoformat d t)
  | _ => inl (TypeError ("Object of type " ++ class_name obj
                           ++ " is not JSON serializable"))
  end.

(** [key in obj] for a string [key]: a key of a dictionary, an element of a
    list, a substring of a string; the other values are no containers and
    the test raises. *)
Definition py_contains (key : string) (obj : value) : exn + bool :=
  match obj with
  | VDict d => inr (dict_contains key d)
  | VList l =>
      inr (existsb (fun x => match x with
                             | VStr s => String.eqb s key
                             | _ => false
                             end) l)
  | VStr s =>
      inr (match String.index 0 key s with
           | Some _ => true
           | None => false
           end)
  | _ => inl (TypeError ("argument of type '" ++ class_name obj
                           ++ "' is not iterable"))
  end.

(** [obj[key]] for a string [key]. *)
Definition py_subscript (obj : value) (key : string) : exn + value :=
  match obj with
  | VDict d => dict_subscript d key
  | VStr _ => inl (TypeError "string indices must be integers")
  | VList _ => inl (TypeError "list indices must be integers or slices, not str")
  | _ => inl (TypeError ("'" ++ class_name obj ++ "' object is not subscriptable"))
  end.

(** The text of a scenario:
    [' and '.join(['when condition "%s" is %s' % (k, v) for (k, v) in scenario.items()])]. *)
Definition scenario_text (scenario : list (string * bool)) : string :=
  join " and "
    (map (fun '(k, v) =>
            "when condition " ++ dquote ++ k ++ dquote ++ " is " ++ str_of_bool v)
       scenario).

Definition check_fn : Type :=
  value -> list string -> Template -> M (list RuleMatch).

(** [for x in xs: body], the loop state being the variables the body
    assigns. *)
Fixpoint for_each {A S : Type} (xs : list A) (body : A -> S -> M S) (s : S)
  : M S :=
  match xs with
  | [] => ret s
  | x :: rest => s' <- body x s ;; for_each rest body s'
  end.

(** Check ManagedPolicyArns is within limits *)
Definition check_managed_policy_arns : check_fn :=
  fun properties path cfn =>
  let matches := [] in
  present <- lift (py_contains "ManagedPolicyArns" properties) ;;
  if negb present then ret matches
  else
    property_sets <- get_object_without_conditions cfn properties ;;
    for_each property_sets (fun property_set matches =>
      let managed_policies := dict_get (Object property_set) "ManagedPolicyArns" in
      match managed_policies with
      | Some (VList managed_policies) =>
          if Nat.ltb 10 (List.length managed_policies) then
            match Scenario property_set with
            | None =>
                ret (matches ++
                       [mkRuleMatch (path ++ ["ManagedPolicyArns"])
                          "IAM resources cannot have more than 10 ManagedPolicyArns"])%list
            | Some scenario =>
                let scenario_text := scenario_text scenario in
                let message :=
                  "IAM resources cannot have more than 10 ManagedPolicyArns when {0}" in
                ret (matches ++
                       [mkRuleMatch (path ++ ["ManagedPolicyArns"])
                          (format message scenario_text)])%list
            end
          else ret matches
      | _ => ret matches
      end) matches.

(** Check InstanceProfile.Roles is within limits *)
Definition check_instance_profile_roles : check_fn :=
  fun properties path cfn =>
  let matches := [] in
  present <- lift (py_contains "Roles" properties) ;;
  if negb present then ret matches
  else
    property_sets <- get_object_without_conditions cfn properties ;;
    for_each property_sets (fun property_set matches =>
      let roles := dict_get (Object property_set) "Roles" in
      match roles with
      | Some (VList roles) =>
          if Nat.ltb 1 (List.length roles) then
            match Scenario property_set with
            | None =>
                ret (matches ++
                       [mkRuleMatch (path ++ ["Roles"])
                          "InstanceProfile can only have one role attached"])%list
            | Some scenario =>
                let scenario_text := scenario_text scenario in
                let message :=
                  "InstanceProfile can only have one role attached when {0}" in
                ret (matches ++
                       [mkRuleMatch (path ++ ["Roles"])
                          (format message scenario_text)])%list
            end
          else ret matches
      | _ => ret matches
      end) matches.

(** Check User.Groups is within limits *)
Definition check_user_groups : check_fn :=
  fun properties path cfn =>
  let matches := [] in
  present <- lift (py_contains "Groups" properties) ;;
  if negb present then ret matches
  else
    property_sets <- get_object_without_conditions cfn properties ;;
    for_each property_sets (fun property_set matches =>
      let groups := dict_get (Object property_set) "Groups" in
      match groups with
      | Some (VList groups) =>
          if Nat.ltb 10 (List.length groups) then
            match Scenario property_set with
            | None =>
                ret (matches ++
                       [mkRuleMatch (path ++ ["Groups"])
                          "User can be a member of maximum 10 groups"])%list
            | Some scenario =>
                let scenario_text := scenario_text scenario in
                let message :=
                  "User can be a member of maximum 10 groups when {0}" in
                ret (matches ++
                       [mkRuleMatch (path ++ ["Groups"])
                          (format message scenario_text)])%list
            end
          else ret matches
      | _ => ret matches
      end) matches.

(** Check Role.AssumeRolePolicyDocument is within limits *)
Definition check_role_assume_role_policy_document : check_fn :=
  fun properties path _ =>
  let matches := [] in
  present <- lift (py_contains "AssumeRolePolicyDocument" properties) ;;
  if negb present then ret matches
  else
    document <- lift (py_subscript properties "AssumeRolePolicyDocument") ;;
    text <- lift (json_dumps _serialize_date document) ;;
    if Nat.ltb 2048 (String.length text) then
      ret (matches ++
             [mkRuleMatch (path ++ ["AssumeRolePolicyDocument"])
                "Role trust policy JSON text cannot be longer than 2048 characters"])%list
    else ret matches.

(** The resource types the rule looks at, each with its checks. *)
Definition types : list (string * list check_fn) :=
  [ ("AWS::IAM::User", [check_managed_policy_arns; check_user_groups]);
    ("AWS::IAM::Group", [check_managed_policy_arns]);
    ("AWS::IAM::Role",
      [check_managed_policy_arns; check_role_assume_role_policy_document]);
    ("AWS::IAM::InstanceProfile", [check_instance_profile_roles]) ].

(** [resource_object.get('Properties', {})]. *)
Definition get_properties (resource_object : ResourceDeclaration) : value :=
  match Properties resource_object with
  | Some properties => properties
  | None => VDict []
  end.

(** Check that IAM resources are below limits *)
Definition match_ (cfn : Template) : M (list RuleMatch) :=
  let matches := [] in
  for_each types (fun '(resource_type, check_list) matches =>
    resources <- get_resources cfn resource_type ;;
    for_each resources (fun '(resource_name, resource_object) matches =>
      let path := ["Resources"; resource_name; "Properties"]%list in
      let properties := get_properties resource_object in
      for_each check_list (fun check matches =>
        found <- check properties path cfn ;;
        ret (matches ++ found)%list) matches) matches) matches.

(** ** Auxiliary definitions for the statements *)

(** The results of [f] on the elements of [xs], in order, one after the
    other: what a loop [for x in xs: matches.extend(f(x))] adds to
    [matches]. *)
Fixpoint collect {A B : Type} (f : A -> M (list B)) (xs : list A)
  : M (list B) :=
  match xs with
  | [] => ret []
  | x :: rest =>
      found <- f x ;; others <- collect f rest ;; ret (found ++ others)%list
  end.

(** What a computation returned, nothing if it raised. *)
Definition value_of {B} (m : M (list B)) : list B :=
  match fst m with
  | inr l => l
  | inl _ => []
  end.

(** The message of a violation found in a branch: the message itself when the
    branch has no scenario, the formatted message otherwise. *)
Definition branch_message (base : string) (scenario : option (list (string * bool)))
  : string :=
  match scenario with
  | None => base
  | Some scenario => format (base ++ " when {0}") (scenario_text scenario)
  end.

(** What one pass of the loop body adds to [matches]. *)
Definition branch_matches (name : string) (threshold : nat) (base : string)
    (path : list string) (property_set : property_set) : list RuleMatch :=
  match dict_get (Object property_set) name with
  | Some (VList l) =>
      if Nat.ltb threshold (List.length l) then
        [mkRuleMatch (path ++ [name]) (branch_message base (Scenario property_set))]
      else []
  | _ => []
  end.

(** A list check with the property it reads, its threshold and its message. *)
Record list_limit := mkListLimit {
  limit_check : check_fn;
  limit_property : string;
  limit_threshold : nat;
  limit_message : string
}.

Definition list_limits : list list_limit :=
  [ mkListLimit check_managed_policy_arns "ManagedPolicyArns" 10
      "IAM resources cannot have more than 10 ManagedPolicyArns";
    mkListLimit check_instance_profile_roles "Roles" 1
      "InstanceProfile can only have one role attached";
    mkListLimit check_user_groups "Groups" 10
      "User can be a member of maximum 10 groups" ].

(** The template [cfn] with the answer of [get_object_without_conditions]
    replaced by [branches]. *)
Definition with_branches (cfn : Template) (branches : list property_set)
  : Template :=
  mkTemplate (resources_by_type cfn) (fun _ => branches).



(** ** Example templates *)

(** The answer of an example template to [get_object_without_conditions]:
    the properties themselves, as one branch under [scenario]. *)
Definition one_branch (scenario : option (list (string * bool)))
    (properties : value) : list property_set :=
  match properties with
  | VDict d => [mkPropertySet d scenario]
  | _ => []
  end.

Definition example_arns (n : nat) : list value :=
  repeat (VStr "arn:aws:iam::aws:policy/ReadOnlyAccess") n.

Definition example_user_properties : dict :=
  [("ManagedPolicyArns", VList (example_arns 11))].

(** One user, [MyUser], with eleven managed policies and no condition. *)
Definition example_user_template : Template :=
  mkTemplate
    (fun resource_type =>
       if String.eqb resource_type "AWS::IAM::User" then
         [("MyUser", mkResource "AWS::IAM::User" (Some (VDict example_user_properties)))]
       else [])
    (one_branch None).

(** The same user, its properties resolved under the condition [IsProd]. *)
Definition example_conditional_template : Template :=
  mkTemplate
    (resources_by_type example_user_template)
    (one_branch (Some [("IsProd", true)])).

(** The suffix of a conditional message as the specification words it: the
    entries rendered as the quoted name, [is] and the boolean, joined with
    [and], after [when]. *)
Definition specified_scenario_suffix (scenario : list (string * bool)) : string :=
  " when " ++
  join " and "
    (map (fun '(k, v) => dquote ++ k ++ dquote ++ " is " ++ str_of_bool v)
       scenario).

(** A user whose managed policies are an intrinsic function, not a list. *)
Definition example_intrinsic_properties : dict :=
  [("ManagedPolicyArns", VDict [("Ref", VStr "PolicyList")])].

Definition example_intrinsic_template : Template :=
  mkTemplate
    (fun resource_type =>
       if String.eqb resource_type "AWS::IAM::User" then
         [("MyUser", mkResource "AWS::IAM::User" (Some (VDict example_intrinsic_properties)))]
       else [])
    (one_branch None).

(** The four checks, each with the property it looks for. *)
Definition property_checks : list (check_fn * string) :=
  [ (check_managed_policy_arns, "ManagedPolicyArns");
    (check_instance_profile_roles, "Roles");
    (check_user_groups, "Groups");
    (check_role_assume_role_policy_document, "AssumeRolePolicyDocument") ].

(** A role whose trust policy has a date and a statement of [n] characters;
    it serializes to [n + 44] characters. *)
Definition example_trust_policy (n : nat) : value :=
  VDict [("Version", VDate (mkDate 2012 10 17));
         ("Statement", VList [VStr (zeros n)])].

Definition example_role_template (document : value) : Template :=
  mkTemplate
    (fun resource_type =>
       if String.eqb resource_type "AWS::IAM::Role" then
         [("MyRole",
           mkResource "AWS::IAM::Role"
             (Some (VDict [("AssumeRolePolicyDocument", document)])))]
       else [])
    (one_branch None).

(** A trust policy with a value the serializer does not know. *)
Definition example_unsupported_policy : value :=
  VDict [("Version", VDate (mkDate 2012 10 17));
         ("Statement", VList [VObject "Decimal"])].

(** ** Auxiliary definitions for further properties *)

(** The test of the loop body of a list check: the branch has a list for
    the property, and the list is longer than the limit. *)
Definition over_limit (name : string) (threshold : nat)
    (property_set : property_set) : bool :=
  match dict_get (Object property_set) name with
  | Some (VList l) => Nat.ltb threshold (List.length l)
  | _ => false
  end.

(** The length of the list a branch has for a property, if it has one. *)
Definition list_length_of (name : string) (property_set : property_set)
  : option nat :=
  match dict_get (Object property_set) name with
  | Some (VList l) => Some (List.length l)
  | _ => None
  end.

(** The resource types of [types], each with a property one of its checks
    reads and the message that check reports. *)
Definition violation_kinds : list (string * string * string) :=
  [ ("AWS::IAM::User", "ManagedPolicyArns",
     "IAM resources cannot have more than 10 ManagedPolicyArns");
    ("AWS::IAM::User", "Groups", "User can be a member of maximum 10 groups");
    ("AWS::IAM::Group", "ManagedPolicyArns",
     "IAM resources cannot have more than 10 ManagedPolicyArns");
    ("AWS::IAM::Role", "ManagedPolicyArns",
     "IAM resources cannot have more than 10 ManagedPolicyArns");
    ("AWS::IAM::Role", "AssumeRolePolicyDocument",
     "Role trust policy JSON text cannot be longer than 2048 characters");
    ("AWS::IAM::InstanceProfile", "Roles",
     "InstanceProfile can only have one role attached") ].



(** A trust policy that is one of two documents, by the condition [cond]. *)
Definition conditional_policy (cond : string) (a b : value) : value :=
  VDict [("Fn::If", VList [VStr cond; a; b])].

(** A user with two branches: eleven managed policies when [IsProd], two
    otherwise. *)
Definition example_two_branches : list property_set :=
  [ mkPropertySet [("ManagedPolicyArns", VList (example_arns 11))]
      (Some [("IsProd", true)]);
    mkPropertySet [("ManagedPolicyArns", VList (example_arns 2))]
      (Some [("IsProd", false)]) ].

Definition example_branching_template : Template :=
  mkTemplate (resources_by_type example_user_template)
    (fun _ => example_two_branches).

(** The same branches with other entries in the lists. *)
Definition example_other_branches : list property_set :=
  [ mkPropertySet [("ManagedPolicyArns", VList (repeat (VInt 0) 11))]
      (Some [("IsProd", true)]);
    mkPropertySet [("ManagedPolicyArns", VList (repeat VNone 2))]
      (Some [("IsProd", false)]) ].

(** A template with no IAM resource. *)
Definition example_empty_template : Template :=
  mkTemplate (fun _ => []) (one_branch None).

(** One pass of the outer loop of [match_]: the resources of a type, each
    given to the checks of the type. *)
Definition check_type (cfn : Template) (entry : string * list check_fn)
  : M (list RuleMatch) :=
  let '(resource_type, check_list) := entry in
  resources <- get_resources cfn resource_type ;;
  collect
    (fun '(resource_name, resource_object) =>
       collect
         (fun check : check_fn =>
            check (get_properties resource_object)
              ["Resources"; resource_name; "Properties"]%list cfn)
         check_list)
    resources.

(** The dates [datetime.date] can hold: years 1 to 9999. *)
Definition valid_date (d : date) : Prop :=
  1 <= year d < 100 * 100 /\ 1 <= month d <= 12 /\ 1 <= day d <= 31.

(** [zero_pad width n] has [width] characters and none of them is escaped. *)
Definition plain_pad (width n : nat) : bool :=
  (Nat.eqb (String.length (zero_pad width n)) width
   && String.eqb (escape_ascii (zero_pad width n)) (zero_pad width n))%bool.




(** ** The rule with its lists as objects

    The lists a call builds ([matches = []], [matches.append(...)],
    [matches.extend(...)], [return matches]) are objects of the interpreter,
    known by their references; two calls share the store of these objects.
    The module has the functions of the rule once more, with the store
    threaded through them: a function returns the reference of the list it
    built. *)
Module Store.

Definition ref := nat.

(** The list objects, by reference. *)
Definition store := list (list RuleMatch).

(** A computation on the store: the result, or the exception raised, the
    calls to the template, and the store it leaves. *)
Definition S (A : Type) : Type := store -> M A * store.

Definition pure {A} (a : A) : S A := fun sigma => (ret a, sigma).

(** A computation that does not touch the store. *)
Definition call {A} (m : M A) : S A := fun sigma => (m, sigma).

Definition bind {A B} (m : S A) (f : A -> S B) : S B :=
  fun sigma =>
    match m sigma with
    | ((inl e, log), sigma1) => ((inl e, log), sigma1)
    | ((inr a, log), sigma1) =>
        match f a sigma1 with
        | ((r, log'), sigma2) => ((r, (log ++ log')%list), sigma2)
        end
    end.

Notation "x <~ m ;; k" := (bind m (fun x => k))
  (at level 61, m at next level, right associativity).

Fixpoint update (sigma : store) (r : ref) (l : list RuleMatch) : store :=
  match sigma, r with
  | [], _ => []
  | _ :: rest, O => l :: rest
  | x :: rest, Datatypes.S k => x :: update rest k l
  end.

(** [[]]: a new list object. *)
Definition new_list : S ref :=
  fun sigma => (ret (List.length sigma), (sigma ++ [[]])%list).

(** [r.append(x)]. *)
Definition append (r : ref) (x : RuleMatch) : S unit :=
  fun sigma => (ret tt, update sigma r (nth r sigma [] ++ [x])%list).

(** [r.extend(r')]. *)
Definition extend (r r' : ref) : S unit :=
  fun sigma => (ret tt, update sigma r (nth r sigma [] ++ nth r' sigma [])%list).

(** [for x in xs: body]. *)
Fixpoint for_each {A : Type} (xs : list A) (body : A -> S unit) : S unit :=
  match xs with
  | [] => pure tt
  | x :: rest => _ <~ body x ;; for_each rest body
  end.

Definition check_fn : Type := value -> list string -> Template -> S ref.

(** Check ManagedPolicyArns is within limits *)
Definition check_managed_policy_arns : check_fn :=
  fun properties path cfn =>
  matches <~ new_list ;;
  present <~ call (lift (py_contains "ManagedPolicyArns" properties)) ;;
  if negb present then pure matches
  else
    property_sets <~ call (get_object_without_conditions cfn properties) ;;
    _ <~ for_each property_sets (fun property_set =>
      let managed_policies := dict_get (Object property_set) "ManagedPolicyArns" in
      match managed_policies with
      | Some (VList managed_policies) =>
          if Nat.ltb 10 (List.length managed_policies) then
            match Scenario property_set with
            | None =>
                append matches
                  (mkRuleMatch (path ++ ["ManagedPolicyArns"])
                     "IAM resources cannot have more than 10 ManagedPolicyArns")
            | Some scenario =>
                let scenario_text := scenario_text scenario in
                let message :=
                  "IAM resources cannot have more than 10 ManagedPolicyArns when {0}" in
                append matches
                  (mkRuleMatch (path ++ ["ManagedPolicyArns"])
                     (format message scenario_text))
            end
          else pure tt
      | _ => pure tt
      end) ;;
    pure matches.

(** Check InstanceProfile.Roles is within limits *)
Definition check_instance_profile_roles : check_fn :=
  fun properties path cfn =>
  matches <~ new_list ;;
  present <~ call (lift (py_contains "Roles" properties)) ;;
  if negb present then pure matches
  else
    property_sets <~ call (get_object_without_conditions cfn properties) ;;
    _ <~ for_each property_sets (fun property_set =>
      let roles := dict_get (Object property_set) "Roles" in
      match roles with
      | Some (VList roles) =>
          if Nat.ltb 1 (List.length roles) then
            match Scenario property_set with
            | None =>
                append matches
                  (mkRuleMatch (path ++ ["Roles"])
                     "InstanceProfile can only have one role attached")
            | Some scenario =>
                let scenario_text := scenario_text scenario in
                let message :=
                  "InstanceProfile can only have one role attached when {0}" in
                append matches
                  (mkRuleMatch (path ++ ["Roles"])
                     (format message scenario_text))
            end
          else pure tt
      | _ => pure tt
      end) ;;
    pure matches.

(** Check User.Groups is within limits *)
Definition check_user_groups : check_fn :=
  fun properties path cfn =>
  matches <~ new_list ;;
  present <~ call (lift (py_contains "Groups" properties)) ;;
  if negb present then pure matches
  else
    property_sets <~ call (get_object_without_conditions cfn properties) ;;
    _ <~ for_each property_sets (fun property_set =>
      let groups := dict_get (Object property_set) "Groups" in
      match groups with
      | Some (VList groups) =>
          if Nat.ltb 10 (List.length groups) then
            match Scenario property_set with
            | None =>
                append matches
                  (mkRuleMatch (path ++ ["Groups"])
                     "User can be a member of maximum 10 groups")
            | Some scenario =>
                let scenario_text := scenario_text scenario in
                let message :=
                  "User can be a member of maximum 10 groups when {0}" in
                append matches
                  (mkRuleMatch (path ++ ["Groups"])
                     (format message scenario_text))
            end
          else pure tt
      | _ => pure tt
      end) ;;
    pure matches.

(** Check Role.AssumeRolePolicyDocument is within limits *)
Definition check_role_assume_role_policy_document : check_fn :=
  fun properties path _ =>
  matches <~ new_list ;;
  present <~ call (lift (py_contains "AssumeRolePolicyDocument" properties)) ;;
  if negb present then pure matches
  else
    document <~ call (lift (py_subscript properties "AssumeRolePolicyDocument")) ;;
    text <~ call (lift (json_dumps _serialize_date document)) ;;
    if Nat.ltb 2048 (String.length text) then
      _ <~ append matches
             (mkRuleMatch (path ++ ["AssumeRolePolicyDocument"])
                "Role trust policy JSON text cannot be longer than 2048 characters") ;;
      pure matches
    else pure matches.

Definition types : list (string * list check_fn) :=
  [ ("AWS::IAM::User", [check_managed_policy_arns; check_user_groups]);
    ("AWS::IAM::Group", [check_managed_policy_arns]);
    ("AWS::IAM::Role",
      [check_managed_policy_arns; check_role_assume_role_policy_document]);
    ("AWS::IAM::InstanceProfile", [check_instance_profile_roles]) ].

(** Check that IAM resources are below limits *)
Definition match_ (cfn : Template) : S ref :=
  matches <~ new_list ;;
  _ <~ for_each types (fun '(resource_type, check_list) =>
    resources <~ call (get_resources cfn resource_type) ;;
    for_each resources (fun '(resource_name, resource_object) =>
      let path := ["Resources"; resource_name; "Properties"]%list in
      let properties := get_properties resource_object in
      for_each check_list (fun check =>
        found <~ check properties path cfn ;;
        extend matches found))) ;;
  pure matches.

End Store.

(** The checks of the rule with lists as objects, each with the check it
    is, as a function to a list. *)
Definition check_pairs : list (Store.check_fn * check_fn) :=
  [ (Store.check_managed_policy_arns, check_managed_policy_arns);
    (Store.check_instance_profile_roles, check_instance_profile_roles);
    (Store.check_user_groups, check_user_groups);
    (Store.check_role_assume_role_policy_document,
     check_role_assume_role_policy_document) ].

(** A check on the store does what the check to a list does: it makes the
    same calls, raises the same exception, and otherwise returns the
    reference of a new object, the only change of the store, that holds the
    same violations (no violation when it raises). *)
Definition refines (check_s : Store.check_fn) (check : check_fn) : Prop :=
  forall properties path cfn sigma,
    check_s properties path cfn sigma =
    ((match fst (check properties path cfn) with
      | inr _ => inr (List.length sigma)
      | inl e => inl e
      end,
      snd (check properties path cfn)),
     (sigma ++ [value_of (check properties path cfn)])%list).

(** A computation on a store that begins with [sigma0], then has the list
    [matches] of reference [length sigma0], then other objects: it keeps
    [sigma0], makes the calls of [m], raises if [m] does, and otherwise adds
    what [m] returns to [matches]. *)
Definition adds (sigma0 : Store.store) (c : Store.S unit)
    (m : M (list RuleMatch)) : Prop :=
  forall acc objs,
    exists acc' objs',
      c (sigma0 ++ acc :: objs)%list =
      ((match fst m with
        | inr _ => inr tt
        | inl e => inl e
        end,
        snd m),
       (sigma0 ++ acc' :: objs')%list) /\
      (forall found, fst m = inr found -> acc' = (acc ++ found)%list).

(** * Properties *)

(** ** The definitions on examples *)

Example json_dumps_primitives :
  json_dumps _serialize_date
    (VList [VInt 0; VInt (-305); VNone; VBool true; VFloat "1.5"; VList [];
            VDict []])
  = inr "[0, -305, null, true, 1.5, [], {}]".
Proof. reflexivity. Qed.

Example json_dumps_date :
  json_dumps _serialize_date (VDate (mkDate 2012 10 17))
  = inr (dquote ++ "2012-10-17" ++ dquote).
Proof. reflexivity. Qed.

Example json_dumps_datetime :
  json_dumps _serialize_date (VDateTime (mkDate 2012 1 7) (mkTime 3 4 5 70))
  = inr (dquote ++ "2012-01-07T03:04:05.000070" ++ dquote).
Proof. reflexivity. Qed.

Example json_dumps_escapes :
  json_dumps _serialize_date (VStr (String "010"%char (String "233"%char "a~")))
  = inr (dquote ++ "\n\u00e9a~" ++ dquote).
Proof. reflexivity. Qed.

Example json_dumps_length :
  match json_dumps _serialize_date (example_trust_policy 2005) with
  | inr text => String.length text
  | inl _ => 0
  end = 2049.
Proof. vm_compute. reflexivity. Qed.

Example json_dumps_unsupported :
  json_dumps _serialize_date example_unsupported_policy
  = inl (TypeError "Object of type Decimal is not JSON serializable").
Proof. reflexivity. Qed.

Example scenario_text_two :
  scenario_text [("IsProd", true); ("UseSecondary", false)]
  = "when condition " ++ dquote ++ "IsProd" ++ dquote ++ " is True and "
      ++ "when condition " ++ dquote ++ "UseSecondary" ++ dquote ++ " is False".
Proof. reflexivity. Qed.

Example match_calls :
  snd (match_ example_user_template)
  = [GetResources "AWS::IAM::User";
     GetObjectWithoutConditions (VDict example_user_properties);
     GetResources "AWS::IAM::Group";
     GetResources "AWS::IAM::Role";
     GetResources "AWS::IAM::InstanceProfile"].
Proof. reflexivity. Qed.

(** ** The computations *)

Lemma bind_ret_l {A B} (a : A) (f : A -> M B) : bind (ret a) f = f a.
Proof. unfold bind, ret. destruct (f a) as [r log]. reflexivity. Qed.

Lemma bind_ret_r {A} (m : M A) : bind m ret = m.
Proof.
  destruct m as [[e | a] log]; simpl; [reflexivity |].
  now rewrite app_nil_r.
Qed.

Lemma bind_assoc {A B C} (m : M A) (f : A -> M B) (g : B -> M C) :
  bind (bind m f) g = bind m (fun a => bind (f a) g).
Proof.
  destruct m as [[e | a] log]; simpl; [reflexivity |].
  destruct (f a) as [[e | b] log1]; simpl; [reflexivity |].
  destruct (g b) as [r log2]. now rewrite app_assoc.
Qed.

Lemma bind_ext {A B} (m : M A) (f g : A -> M B) :
  (forall a, f a = g a) -> bind m f = bind m g.
Proof.
  intros H. destruct m as [[e | a] log]; simpl; [reflexivity |].
  now rewrite H.
Qed.

Lemma fst_bind {A B} (m : M A) (f : A -> M B) :
  fst (bind m f) =
  match fst m with
  | inl e => inl e
  | inr a => fst (f a)
  end.
Proof.
  destruct m as [[e | a] log]; simpl; [reflexivity |].
  now destruct (f a).
Qed.

Lemma value_of_inr {B} (m : M (list B)) (l : list B) :
  fst m = inr l -> value_of m = l.
Proof. unfold value_of. now intros ->. Qed.

Lemma for_each_extend {A B} (f : A -> M (list B)) (body : A -> list B -> M (list B)) :
  (forall x s, body x s = (found <- f x ;; ret (s ++ found)%list)) ->
  forall xs s,
    for_each xs body s = (found <- collect f xs ;; ret (s ++ found)%list).
Proof.
  intros Hbody. induction xs as [| x rest IH]; intros s; cbn [for_each collect].
  - now rewrite bind_ret_l, app_nil_r.
  - rewrite Hbody, !bind_assoc. apply bind_ext; intros found.
    rewrite bind_ret_l, IH, bind_assoc. apply bind_ext; intros others.
    now rewrite bind_ret_l, app_assoc.
Qed.

Lemma collect_ext {A B} (f g : A -> M (list B)) (xs : list A) :
  (forall x, In x xs -> f x = g x) -> collect f xs = collect g xs.
Proof.
  induction xs as [| x rest IH]; intros H; cbn [collect]; [reflexivity |].
  rewrite (H x (or_introl eq_refl)), IH; [reflexivity |].
  intros y Hy. apply H. now right.
Qed.



Lemma collect_inr {A B} (f : A -> M (list B)) (xs : list A) (ms : list B) :
  fst (collect f xs) = inr ms ->
  (forall x, In x xs -> exists l, fst (f x) = inr l) /\
  ms = flat_map (fun x => value_of (f x)) xs.
Proof.
  revert ms. induction xs as [| x rest IH]; cbn [collect flat_map]; intros ms.
  - intros [= <-]. split; [intros x [] | reflexivity].
  - rewrite fst_bind. destruct (fst (f x)) as [e' | l] eqn:Hx; [discriminate |].
    rewrite fst_bind. destruct (fst (collect f rest)) as [e' | l'] eqn:Hr;
      [discriminate |].
    simpl. intros [= <-]. destruct (IH l' eq_refl) as [Hall ->]. split.
    + intros y [<- | Hy]; [eauto | auto].
    + now rewrite (value_of_inr _ _ Hx).
Qed.


(** ** The three list checks have one shape *)

Lemma for_each_pure {A B} (g : A -> list B) (body : A -> list B -> M (list B)) :
  (forall x s, body x s = ret (s ++ g x)%list) ->
  forall xs s, for_each xs body s = ret (s ++ flat_map g xs)%list.
Proof.
  intros Hbody. induction xs as [| x rest IH]; intros s; cbn [for_each flat_map].
  - now rewrite app_nil_r.
  - now rewrite Hbody, bind_ret_l, IH, app_assoc.
Qed.

Lemma list_limit_general (lim : list_limit) :
  In lim list_limits ->
  forall properties path cfn,
    limit_check lim properties path cfn =
    match py_contains (limit_property lim) properties with
    | inl e => (inl e, [])
    | inr false => ret []
    | inr true =>
        (inr (flat_map
                (branch_matches (limit_property lim) (limit_threshold lim)
                   (limit_message lim) path)
                (branches_of cfn properties)),
         [GetObjectWithoutConditions properties])
    end.
Proof.
  intros Hin properties path cfn.
  destruct Hin as [<- | [<- | [<- | []]]]; cbn [limit_check limit_property
    limit_threshold limit_message];
    [unfold check_managed_policy_arns | unfold check_instance_profile_roles
    | unfold check_user_groups];
    (destruct (py_contains _ properties) as [e | []]; [reflexivity | | reflexivity]);
    unfold lift, get_object_without_conditions, bind; cbn [negb];
    (erewrite for_each_pure; [reflexivity |]);
    intros ps s; unfold branch_matches;
    (destruct (dict_get (Object ps) _) as [[] |]; try (now rewrite app_nil_r));
    (destruct (Nat.ltb _ _); [| now rewrite app_nil_r]);
    now destruct (Scenario ps).
Qed.

Lemma list_limit_shape (lim : list_limit) :
  In lim list_limits ->
  forall properties path cfn,
    limit_check lim (VDict properties) path cfn =
    if negb (dict_contains (limit_property lim) properties) then ret []
    else (inr (flat_map
                 (branch_matches (limit_property lim) (limit_threshold lim)
                    (limit_message lim) path)
                 (branches_of cfn (VDict properties))),
          [GetObjectWithoutConditions (VDict properties)]).
Proof.
  intros Hin properties path cfn. rewrite (list_limit_general lim Hin).
  cbn [py_contains]. now destruct (dict_contains (limit_property lim) properties).
Qed.

Lemma list_limit_absent (lim : list_limit) properties path cfn :
  In lim list_limits ->
  dict_get properties (limit_property lim) = None ->
  limit_check lim (VDict properties) path cfn = (inr [], []).
Proof.
  intros Hin Habs. rewrite (list_limit_shape lim Hin).
  unfold dict_contains. now rewrite Habs.
Qed.

Lemma list_limit_present (lim : list_limit) properties path cfn :
  In lim list_limits ->
  dict_contains (limit_property lim) properties = true ->
  limit_check lim (VDict properties) path cfn =
  (inr (flat_map
          (branch_matches (limit_property lim) (limit_threshold lim)
             (limit_message lim) path)
          (branches_of cfn (VDict properties))),
   [GetObjectWithoutConditions (VDict properties)]).
Proof.
  intros Hin Hpres. rewrite (list_limit_shape lim Hin). now rewrite Hpres.
Qed.


(** The result of a list check splits at every branch: what the branches
    before it give, what the branch gives, what the branches after it
    give. *)
Lemma list_limit_split (lim : list_limit) properties path cfn before ps after :
  In lim list_limits ->
  dict_contains (limit_property lim) properties = true ->
  branches_of cfn (VDict properties) = (before ++ ps :: after)%list ->
  exists ms_before ms_after,
    fst (limit_check lim (VDict properties) path (with_branches cfn before))
      = inr ms_before /\
    fst (limit_check lim (VDict properties) path (with_branches cfn after))
      = inr ms_after /\
    fst (limit_check lim (VDict properties) path cfn) =
      inr (ms_before
             ++ branch_matches (limit_property lim) (limit_threshold lim)
                  (limit_message lim) path ps
             ++ ms_after)%list.
Proof.
  intros Hin Hpres Hbr.
  rewrite !(list_limit_present lim _ _ _ Hin Hpres), Hbr. cbn [fst].
  eexists _, _. split; [reflexivity |]. split; [reflexivity |].
  cbn [with_branches branches_of].
  now rewrite flat_map_app.
Qed.

(** ** Serialization *)


(** ** The trust policy check *)

Lemma check_role_general properties path cfn :
  check_role_assume_role_policy_document properties path cfn =
  match py_contains "AssumeRolePolicyDocument" properties with
  | inl e => (inl e, [])
  | inr false => (inr [], [])
  | inr true =>
      match py_subscript properties "AssumeRolePolicyDocument" with
      | inl e => (inl e, [])
      | inr document =>
          match json_dumps _serialize_date document with
          | inl e => (inl e, [])
          | inr text =>
              (inr (if Nat.ltb 2048 (String.length text) then
                      [mkRuleMatch (path ++ ["AssumeRolePolicyDocument"])
                         "Role trust policy JSON text cannot be longer than 2048 characters"]
                    else []),
               [])
          end
      end
  end.
Proof.
  unfold check_role_assume_role_policy_document.
  destruct (py_contains "AssumeRolePolicyDocument" properties) as [e | []];
    [reflexivity | | reflexivity].
  destruct (py_subscript properties "AssumeRolePolicyDocument")
    as [e | document]; [reflexivity |].
  unfold lift, bind; cbn [negb].
  destruct (json_dumps _serialize_date document) as [e | text]; [reflexivity |].
  now destruct (Nat.ltb 2048 (String.length text)).
Qed.

Lemma check_role_shape properties path cfn :
  check_role_assume_role_policy_document (VDict properties) path cfn =
  match dict_get properties "AssumeRolePolicyDocument" with
  | None => (inr [], [])
  | Some document =>
      match json_dumps _serialize_date document with
      | inl e => (inl e, [])
      | inr text =>
          (inr (if Nat.ltb 2048 (String.length text) then
                  [mkRuleMatch (path ++ ["AssumeRolePolicyDocument"])
                     "Role trust policy JSON text cannot be longer than 2048 characters"]
                else []),
           [])
      end
  end.
Proof.
  rewrite check_role_general. cbn [py_contains py_subscript].
  unfold dict_contains, dict_subscript.
  now destruct (dict_get properties "AssumeRolePolicyDocument").
Qed.

(** ** The dispatcher *)

Lemma match_collect (cfn : Template) :
  match_ cfn =
  collect
    (fun '(resource_type, check_list) =>
       resources <- get_resources cfn resource_type ;;
       collect
         (fun '(resource_name, resource_object) =>
            collect
              (fun check : check_fn =>
                 check (get_properties resource_object)
                   ["Resources"; resource_name; "Properties"]%list cfn)
              check_list)
         resources)
    types.
Proof.
  unfold match_.
  erewrite for_each_extend; [now rewrite bind_ret_r |].
  intros [resource_type check_list] s. rewrite bind_assoc.
  apply bind_ext; intros resources.
  apply for_each_extend. intros [resource_name resource_object] s'.
  apply for_each_extend. reflexivity.
Qed.

Lemma collect_incl {A B} (f : A -> M (list B)) (xs : list A) ms x l :
  fst (collect f xs) = inr ms -> In x xs -> fst (f x) = inr l -> incl l ms.
Proof.
  intros Hc Hin Hx m Hm. destruct (collect_inr _ _ _ Hc) as [_ ->].
  apply in_flat_map. exists x. split; [assumption |].
  now rewrite (value_of_inr _ _ Hx).
Qed.

Lemma fst_get_resources cfn resource_type B (k : _ -> M B) :
  fst (resources <- get_resources cfn resource_type ;; k resources) =
  fst (k (resources_by_type cfn resource_type)).
Proof. now rewrite fst_bind. Qed.

(** Whatever a check returns for a resource is part of what [match_]
    returns. *)
Lemma match_includes cfn ms resource_type check_list (check : check_fn)
    resource_name resource_object found :
  fst (match_ cfn) = inr ms ->
  In (resource_type, check_list) types ->
  In check check_list ->
  In (resource_name, resource_object) (resources_by_type cfn resource_type) ->
  fst (check (get_properties resource_object)
         ["Resources"; resource_name; "Properties"]%list cfn) = inr found ->
  incl found ms.
Proof.
  rewrite match_collect. intros Hms Hty Hcheck Hres Hfound.
  destruct (collect_inr _ _ _ Hms) as [Hall _].
  destruct (Hall _ Hty) as [l Hl].
  apply incl_tran with (m := l); [| exact (collect_incl _ _ _ _ _ Hms Hty Hl)].
  cbn beta iota in Hl. rewrite fst_get_resources in Hl.
  destruct (collect_inr _ _ _ Hl) as [Hall' _].
  destruct (Hall' _ Hres) as [l' Hl'].
  apply incl_tran with (m := l'); [| exact (collect_incl _ _ _ _ _ Hl Hres Hl')].
  cbn beta iota in Hl'.
  exact (collect_incl _ _ _ _ _ Hl' Hcheck Hfound).
Qed.






Lemma string_app_nil_r (s : string) : s ++ "" = s.
Proof. induction s as [| c s IH]; simpl; [reflexivity | now rewrite IH]. Qed.

Lemma branch_message_some (lim : list_limit) scenario :
  In lim list_limits ->
  branch_message (limit_message lim) (Some scenario) =
  limit_message lim ++ " when " ++ scenario_text scenario.
Proof.
  intros [<- | [<- | [<- | []]]];
    cbn [branch_message limit_message format append];
    now rewrite string_app_nil_r.
Qed.

(** ** The list checks, branch by branch *)



(** C6: a branch whose value is not a list (the property resolved to
    something else, or to nothing) adds no violation, whatever the value:
    the result is what the branches before give, then what the branches after
    give. *)
Theorem list_limit_skips_non_list (lim : list_limit) properties path cfn before
    ps after :
  In lim list_limits ->
  dict_contains (limit_property lim) properties = true ->
  branches_of cfn (VDict properties) = (before ++ ps :: after)%list ->
  (forall l, dict_get (Object ps) (limit_property lim) <> Some (VList l)) ->
  exists ms_before ms_after,
    fst (limit_check lim (VDict properties) path (with_branches cfn before))
      = inr ms_before /\
    fst (limit_check lim (VDict properties) path (with_branches cfn after))
      = inr ms_after /\
    fst (limit_check lim (VDict properties) path cfn) = inr (ms_before ++ ms_after)%list.
Proof.
  intros Hin Hpres Hbr Hnot.
  destruct (list_limit_split lim properties path cfn before ps after Hin Hpres Hbr)
    as [ms_before [ms_after [Hb [Ha Hc]]]].
  exists ms_before, ms_after. split; [exact Hb |]. split; [exact Ha |].
  unfold branch_matches in Hc.
  destruct (dict_get (Object ps) (limit_property lim)) as [[] |];
    try exact Hc.
  now elim (Hnot l).
Qed.

Lemma list_limit_skips_non_list_witness :
  exists ms_before ms_after,
    fst (check_managed_policy_arns (VDict example_intrinsic_properties)
           ["Resources"; "MyUser"; "Properties"]%list
           (with_branches example_intrinsic_template [])) = inr ms_before /\
    fst (check_managed_policy_arns (VDict example_intrinsic_properties)
           ["Resources"; "MyUser"; "Properties"]%list
           (with_branches example_intrinsic_template [])) = inr ms_after /\
    fst (check_managed_policy_arns (VDict example_intrinsic_properties)
           ["Resources"; "MyUser"; "Properties"]%list example_intrinsic_template)
      = inr (ms_before ++ ms_after)%list.
Proof.
  apply (list_limit_skips_non_list
           (mkListLimit check_managed_policy_arns "ManagedPolicyArns" 10
              "IAM resources cannot have more than 10 ManagedPolicyArns")
           example_intrinsic_properties ["Resources"; "MyUser"; "Properties"]%list
           example_intrinsic_template []
           (mkPropertySet example_intrinsic_properties None) []).
  - simpl. auto.
  - reflexivity.
  - reflexivity.
  - intros l. simpl. discriminate.
Defined.

(** ** Absent properties *)

(** C5: when the property a check looks for (ManagedPolicyArns, Roles,
    Groups, AssumeRolePolicyDocument) is not in the properties of the
    resource, the check returns no violation and has not asked the template
    to resolve the conditions: its call log is empty. *)
Theorem absent_property_no_op (check : check_fn) (name : string) properties path
    cfn :
  In (check, name) property_checks ->
  dict_contains name properties = false ->
  check (VDict properties) path cfn = (inr [], []).
Proof.
  intros Hin Habs.
  assert (Hget : dict_get properties name = None).
  { unfold dict_contains in Habs. now destruct (dict_get properties name). }
  destruct Hin as [H | [H | [H | [H | []]]]]; injection H as <- <-.
  - apply (list_limit_absent
             (mkListLimit check_managed_policy_arns "ManagedPolicyArns" 10
                "IAM resources cannot have more than 10 ManagedPolicyArns"));
      [simpl; auto | exact Hget].
  - apply (list_limit_absent
             (mkListLimit check_instance_profile_roles "Roles" 1
                "InstanceProfile can only have one role attached"));
      [simpl; auto | exact Hget].
  - apply (list_limit_absent
             (mkListLimit check_user_groups "Groups" 10
                "User can be a member of maximum 10 groups"));
      [simpl; auto | exact Hget].
  - rewrite check_role_shape. now rewrite Hget.
Qed.

Lemma absent_property_no_op_witness :
  check_user_groups (VDict example_user_properties)
    ["Resources"; "MyUser"; "Properties"]%list example_user_template
  = (inr [], []).
Proof.
  apply (absent_property_no_op check_user_groups "Groups").
  - simpl. auto.
  - reflexivity.
Defined.

(** ** The message of a conditional branch *)

(** C2, as the specification states it, fails: for the scenario
    [{"IsProd": True}] the message of the violation is not the message of
    the check followed by [ when "IsProd" is True]. *)
Lemma conditional_message_differs :
  exists m,
    fst (check_managed_policy_arns (VDict example_user_properties)
           ["Resources"; "MyUser"; "Properties"]%list
           example_conditional_template) = inr [m] /\
    message m <>
      "IAM resources cannot have more than 10 ManagedPolicyArns"
        ++ specified_scenario_suffix [("IsProd", true)].
Proof.
  eexists. split; [vm_compute; reflexivity |].
  vm_compute. discriminate.
Qed.

(** C2, amended: for each list check there is a fixed text that joins the
    message of the check to the text of the scenario; a conditional branch
    over the limit gives exactly one violation whose message is the message of
    the check, that text, and then the entries of the scenario in the order
    of the mapping, each rendered as [when condition "<name>" is <bool>] and
    joined with [ and ]. *)
Theorem conditional_message_format (lim : list_limit) :
  In lim list_limits ->
  exists sep,
    forall properties path cfn before ps after l scenario,
      dict_contains (limit_property lim) properties = true ->
      branches_of cfn (VDict properties) = (before ++ ps :: after)%list ->
      dict_get (Object ps) (limit_property lim) = Some (VList l) ->
      limit_threshold lim < List.length l ->
      Scenario ps = Some scenario ->
      exists ms_before ms_after,
        fst (limit_check lim (VDict properties) path (with_branches cfn before))
          = inr ms_before /\
        fst (limit_check lim (VDict properties) path (with_branches cfn after))
          = inr ms_after /\
        fst (limit_check lim (VDict properties) path cfn) =
          inr (ms_before
                 ++ [mkRuleMatch (path ++ [limit_property lim])
                       (limit_message lim ++ sep ++
                        join " and "
                          (map (fun '(k, v) =>
                                  "when condition " ++ dquote ++ k ++ dquote
                                    ++ " is " ++ str_of_bool v)
                             scenario))%string]
                 ++ ms_after)%list.
Proof.
  intros Hin. exists " when ".
  intros properties path cfn before ps after l scenario Hpres Hbr Hl Hlen Hsc.
  destruct (list_limit_split lim properties path cfn before ps after Hin Hpres Hbr)
    as [ms_before [ms_after [Hb [Ha Hc]]]].
  exists ms_before, ms_after. split; [exact Hb |]. split; [exact Ha |].
  unfold branch_matches in Hc. rewrite Hl, Hsc in Hc.
  apply Nat.ltb_lt in Hlen. rewrite Hlen in Hc.
  now rewrite (branch_message_some lim scenario Hin) in Hc.
Qed.

Lemma conditional_message_format_witness :
  exists sep,
    fst (check_managed_policy_arns (VDict example_user_properties)
           ["Resources"; "MyUser"; "Properties"]%list
           example_conditional_template) =
    inr [mkRuleMatch
           ["Resources"; "MyUser"; "Properties"; "ManagedPolicyArns"]
           ("IAM resources cannot have more than 10 ManagedPolicyArns" ++ sep ++
            "when condition " ++ dquote ++ "IsProd" ++ dquote ++ " is True")].
Proof.
  destruct (conditional_message_format
              (mkListLimit check_managed_policy_arns "ManagedPolicyArns" 10
                 "IAM resources cannot have more than 10 ManagedPolicyArns")
              (or_introl eq_refl)) as [sep Hsep].
  exists sep.
  destruct (Hsep example_user_properties ["Resources"; "MyUser"; "Properties"]%list
              example_conditional_template []
              (mkPropertySet example_user_properties (Some [("IsProd", true)]))
              [] (example_arns 11) [("IsProd", true)]
              eq_refl eq_refl eq_refl (le_n 11) eq_refl)
    as [ms_before [ms_after [Hb [Ha Hc]]]].
  cbn in Hb, Ha. injection Hb as <-. injection Ha as <-.
  exact Hc.
Defined.

(** ** The trust policy *)

(** C3: the trust policy check asks the template for nothing (its call log is
    empty, so no condition is resolved); it serializes the value of
    AssumeRolePolicyDocument as it is in the properties, and returns exactly
    one violation, with the message that names no scenario, when the text is
    longer than 2048 characters and none otherwise: none at 2048 characters,
    one at 2049. *)
Theorem trust_policy_threshold properties path cfn document text :
  dict_get properties "AssumeRolePolicyDocument" = Some document ->
  json_dumps _serialize_date document = inr text ->
  (2048 < String.length text ->
   check_role_assume_role_policy_document (VDict properties) path cfn =
     (inr [mkRuleMatch (path ++ ["AssumeRolePolicyDocument"])
             "Role trust policy JSON text cannot be longer than 2048 characters"],
      [])) /\
  (String.length text <= 2048 ->
   check_role_assume_role_policy_document (VDict properties) path cfn = (inr [], [])) /\
  (String.length text = 2048 ->
   check_role_assume_role_policy_document (VDict properties) path cfn = (inr [], [])) /\
  (String.length text = 2049 ->
   check_role_assume_role_policy_document (VDict properties) path cfn =
     (inr [mkRuleMatch (path ++ ["AssumeRolePolicyDocument"])
             "Role trust policy JSON text cannot be longer than 2048 characters"],
      [])).
Proof.
  intros Hdoc Htext. rewrite check_role_shape, Hdoc, Htext.
  assert (Hover : 2048 < String.length text ->
                  Nat.ltb 2048 (String.length text) = true)
    by (intros H; now apply Nat.ltb_lt).
  assert (Hunder : String.length text <= 2048 ->
                   Nat.ltb 2048 (String.length text) = false)
    by (intros H; now apply Nat.ltb_ge).
  repeat split; intros H.
  - now rewrite Hover.
  - now rewrite Hunder.
  - rewrite Hunder; [reflexivity | lia].
  - rewrite Hover; [reflexivity | lia].
Qed.

Lemma trust_policy_threshold_witness :
  check_role_assume_role_policy_document
    (VDict [("AssumeRolePolicyDocument", example_trust_policy 2004)])
    ["Resources"; "MyRole"; "Properties"]%list
    (example_role_template (example_trust_policy 2004))
  = (inr [], []) /\
  check_role_assume_role_policy_document
    (VDict [("AssumeRolePolicyDocument", example_trust_policy 2005)])
    ["Resources"; "MyRole"; "Properties"]%list
    (example_role_template (example_trust_policy 2005))
  = (inr [mkRuleMatch
            ["Resources"; "MyRole"; "Properties"; "AssumeRolePolicyDocument"]
            "Role trust policy JSON text cannot be longer than 2048 characters"],
     []).
Proof.
  split.
  - refine (proj1 (proj2 (proj2
      (trust_policy_threshold
         [("AssumeRolePolicyDocument", example_trust_policy 2004)] _ _
         (example_trust_policy 2004) _ eq_refl _))) _).
    + lazy. reflexivity.
    + vm_compute. reflexivity.
  - refine (proj2 (proj2 (proj2
      (trust_policy_threshold
         [("AssumeRolePolicyDocument", example_trust_policy 2005)] _ _
         (example_trust_policy 2005) _ eq_refl _))) _).
    + lazy. reflexivity.
    + vm_compute. reflexivity.
Defined.

(** ** Exceptions *)








(** ** The order of the violations *)

Lemma collect_cons {A B} (f : A -> M (list B)) (x : A) (rest : list A) :
  collect f (x :: rest) =
  (found <- f x ;; others <- collect f rest ;; ret (found ++ others)%list).
Proof. reflexivity. Qed.

Lemma bind_collect_ext {A B C} (f g : A -> M (list B)) (xs : list A)
    (k k' : list B -> M C) :
  (forall x, f x = g x) -> (forall found, k found = k' found) ->
  bind (collect f xs) k = bind (collect g xs) k'.
Proof.
  intros Hf Hk. rewrite (collect_ext f g xs) by (intros x _; apply Hf).
  now apply bind_ext.
Qed.

Lemma collect_one {A B} (f : A -> M (list B)) (x : A) : collect f [x] = f x.
Proof.
  cbn [collect]. rewrite <- (bind_ret_r (f x)) at 2.
  apply bind_ext; intros found. now rewrite bind_ret_l, app_nil_r.
Qed.

Lemma collect_two {A B} (f : A -> M (list B)) (x y : A) :
  collect f [x; y] = (a <- f x ;; b <- f y ;; ret (a ++ b)%list).
Proof.
  change (collect f [x; y])
    with (a <- f x ;; others <- collect f [y] ;; ret (a ++ others)%list).
  now rewrite collect_one.
Qed.

Ltac run_checks name r cfn :=
  first
    [ exact (collect_one
               (fun check : check_fn =>
                  check (get_properties r)
                    ["Resources"; name; "Properties"]%list cfn) _)
    | exact (collect_two
               (fun check : check_fn =>
                  check (get_properties r)
                    ["Resources"; name; "Properties"]%list cfn) _ _) ].

(** C7: [match_] takes the resource types in the order User, Group, Role,
    InstanceProfile; for each type it asks the template for the resources of
    the type and takes them in the order of the answer; for each resource it
    runs the checks of the type in their order (User: ManagedPolicyArns then
    Groups; Group: ManagedPolicyArns; Role: ManagedPolicyArns then
    AssumeRolePolicyDocument; InstanceProfile: Roles); the violations are
    returned in that order. *)
Theorem dispatch_order (cfn : Template) :
  match_ cfn =
  (users <- get_resources cfn "AWS::IAM::User" ;;
   of_users <-
     collect
       (fun '(resource_name, resource_object) =>
          a <- check_managed_policy_arns (get_properties resource_object)
                 ["Resources"; resource_name; "Properties"]%list cfn ;;
          b <- check_user_groups (get_properties resource_object)
                 ["Resources"; resource_name; "Properties"]%list cfn ;;
          ret (a ++ b)%list)
       users ;;
   groups <- get_resources cfn "AWS::IAM::Group" ;;
   of_groups <-
     collect
       (fun '(resource_name, resource_object) =>
          check_managed_policy_arns (get_properties resource_object)
            ["Resources"; resource_name; "Properties"]%list cfn)
       groups ;;
   roles <- get_resources cfn "AWS::IAM::Role" ;;
   of_roles <-
     collect
       (fun '(resource_name, resource_object) =>
          a <- check_managed_policy_arns (get_properties resource_object)
                 ["Resources"; resource_name; "Properties"]%list cfn ;;
          b <- check_role_assume_role_policy_document
                 (get_properties resource_object)
                 ["Resources"; resource_name; "Properties"]%list cfn ;;
          ret (a ++ b)%list)
       roles ;;
   profiles <- get_resources cfn "AWS::IAM::InstanceProfile" ;;
   of_profiles <-
     collect
       (fun '(resource_name, resource_object) =>
          check_instance_profile_roles (get_properties resource_object)
            ["Resources"; resource_name; "Properties"]%list cfn)
       profiles ;;
   ret (of_users ++ of_groups ++ of_roles ++ of_profiles)%list).
Proof.
  rewrite match_collect. unfold types. rewrite !collect_cons.
  change (collect _ (@nil (string * list check_fn))) with (@ret (list RuleMatch) []).
  rewrite !bind_assoc. apply bind_ext; intros users.
  apply bind_collect_ext; [intros [name r]; run_checks name r cfn | intros of_users].
  rewrite !bind_assoc. apply bind_ext; intros groups.
  rewrite !bind_assoc.
  apply bind_collect_ext; [intros [name r]; run_checks name r cfn | intros of_groups].
  rewrite !bind_assoc. apply bind_ext; intros roles.
  rewrite !bind_assoc.
  apply bind_collect_ext; [intros [name r]; run_checks name r cfn | intros of_roles].
  rewrite !bind_assoc. apply bind_ext; intros profiles.
  rewrite !bind_assoc.
  apply bind_collect_ext; [intros [name r]; run_checks name r cfn | intros of_profiles].
  rewrite !bind_ret_l. now rewrite app_nil_r.
Qed.

(** ** A user with eleven managed policies *)

Lemma managed_policy_arns_unconditional properties path cfn l :
  dict_get properties "ManagedPolicyArns" = Some (VList l) ->
  10 < List.length l ->
  branches_of cfn (VDict properties) = [mkPropertySet properties None] ->
  check_managed_policy_arns (VDict properties) path cfn =
  (inr [mkRuleMatch (path ++ ["ManagedPolicyArns"])
          "IAM resources cannot have more than 10 ManagedPolicyArns"],
   [GetObjectWithoutConditions (VDict properties)]).
Proof.
  intros Hget Hlen Hbr.
  rewrite (list_limit_present
             (mkListLimit check_managed_policy_arns "ManagedPolicyArns" 10
                "IAM resources cannot have more than 10 ManagedPolicyArns"));
    [| simpl; auto | unfold dict_contains; cbn [limit_property]; now rewrite Hget].
  rewrite Hbr. cbn [flat_map limit_property limit_threshold limit_message].
  unfold branch_matches. cbn [Object Scenario]. rewrite Hget.
  apply Nat.ltb_lt in Hlen. rewrite Hlen. reflexivity.
Qed.

(** C8: for a template with a user [MyUser] whose ManagedPolicyArns is a list
    of eleven entries under no condition, the check of the managed policies
    gives exactly one violation, at the path Resources, MyUser, Properties,
    ManagedPolicyArns, with the message that names no scenario; [match_]
    returns it, and returns nothing else when the template has no other IAM
    resource and the user no groups. *)
Theorem user_with_eleven_policies cfn resource_object properties l :
  In ("MyUser", resource_object) (resources_by_type cfn "AWS::IAM::User") ->
  get_properties resource_object = VDict properties ->
  dict_get properties "ManagedPolicyArns" = Some (VList l) ->
  List.length l = 11 ->
  branches_of cfn (VDict properties) = [mkPropertySet properties None] ->
  check_managed_policy_arns (VDict properties)
    ["Resources"; "MyUser"; "Properties"]%list cfn =
    (inr [mkRuleMatch ["Resources"; "MyUser"; "Properties"; "ManagedPolicyArns"]
            "IAM resources cannot have more than 10 ManagedPolicyArns"],
     [GetObjectWithoutConditions (VDict properties)]) /\
  (forall ms,
     fst (match_ cfn) = inr ms ->
     In (mkRuleMatch ["Resources"; "MyUser"; "Properties"; "ManagedPolicyArns"]
           "IAM resources cannot have more than 10 ManagedPolicyArns") ms) /\
  (resources_by_type cfn "AWS::IAM::User" = [("MyUser", resource_object)] ->
   resources_by_type cfn "AWS::IAM::Group" = [] ->
   resources_by_type cfn "AWS::IAM::Role" = [] ->
   resources_by_type cfn "AWS::IAM::InstanceProfile" = [] ->
   dict_contains "Groups" properties = false ->
   fst (match_ cfn) =
     inr [mkRuleMatch ["Resources"; "MyUser"; "Properties"; "ManagedPolicyArns"]
            "IAM resources cannot have more than 10 ManagedPolicyArns"]).
Proof.
  intros Hres Hprops Hget Hlen Hbr.
  assert (Hcheck :
    check_managed_policy_arns (VDict properties)
      ["Resources"; "MyUser"; "Properties"]%list cfn =
    (inr [mkRuleMatch ["Resources"; "MyUser"; "Properties"; "ManagedPolicyArns"]
            "IAM resources cannot have more than 10 ManagedPolicyArns"],
     [GetObjectWithoutConditions (VDict properties)])).
  { apply (managed_policy_arns_unconditional properties
             ["Resources"; "MyUser"; "Properties"]%list cfn l Hget);
      [lia | exact Hbr]. }
  split; [exact Hcheck |]. split.
  - intros ms Hms.
    apply (match_includes cfn ms "AWS::IAM::User"
             [check_managed_policy_arns; check_user_groups]
             check_managed_policy_arns "MyUser" resource_object
             [mkRuleMatch
                ["Resources"; "MyUser"; "Properties"; "ManagedPolicyArns"]
                "IAM resources cannot have more than 10 ManagedPolicyArns"]
             Hms);
      [simpl; auto | simpl; auto | exact Hres | | simpl; auto].
    rewrite Hprops, Hcheck. reflexivity.
  - intros Husers Hgroups Hroles Hprofiles Hnogroups.
    rewrite match_collect. unfold types, get_resources.
    rewrite !collect_cons, Husers, Hgroups, Hroles, Hprofiles.
    cbn [collect bind ret fst snd app]. rewrite Hprops, Hcheck.
    cbn [collect bind ret fst snd app].
    rewrite (list_limit_absent
               (mkListLimit check_user_groups "Groups" 10
                  "User can be a member of maximum 10 groups")
               properties _ cfn);
      [reflexivity | simpl; auto |].
    cbn [limit_property]. unfold dict_contains in Hnogroups.
    now destruct (dict_get properties "Groups").
Qed.

Lemma user_with_eleven_policies_witness :
  fst (match_ example_user_template) =
  inr [mkRuleMatch ["Resources"; "MyUser"; "Properties"; "ManagedPolicyArns"]
         "IAM resources cannot have more than 10 ManagedPolicyArns"].
Proof.
  refine (proj2 (proj2
    (user_with_eleven_policies example_user_template
       (mkResource "AWS::IAM::User" (Some (VDict example_user_properties)))
       example_user_properties (example_arns 11) _ eq_refl eq_refl eq_refl eq_refl))
    eq_refl eq_refl eq_refl eq_refl eq_refl).
  simpl. auto.
Defined.

(** ** The message of the managed policies *)

(** C10: for a resource of type [AWS::IAM::User], [AWS::IAM::Group] or
    [AWS::IAM::Role] alike, a branch with no scenario and more than ten
    managed policies is reported with the one message
    [IAM resources cannot have more than 10 ManagedPolicyArns]. *)
Theorem managed_policy_message_fixed resource_type cfn resource_name
    resource_object ps l ms :
  In resource_type ["AWS::IAM::User"; "AWS::IAM::Group"; "AWS::IAM::Role"] ->
  In (resource_name, resource_object) (resources_by_type cfn resource_type) ->
  py_contains "ManagedPolicyArns" (get_properties resource_object) = inr true ->
  In ps (branches_of cfn (get_properties resource_object)) ->
  Scenario ps = None ->
  dict_get (Object ps) "ManagedPolicyArns" = Some (VList l) ->
  10 < List.length l ->
  fst (match_ cfn) = inr ms ->
  In (mkRuleMatch ["Resources"; resource_name; "Properties"; "ManagedPolicyArns"]
        "IAM resources cannot have more than 10 ManagedPolicyArns") ms.
Proof.
  intros Hty Hres Hpres Hps Hsc Hget Hlen Hms.
  pose proof (list_limit_general
                (mkListLimit check_managed_policy_arns "ManagedPolicyArns" 10
                   "IAM resources cannot have more than 10 ManagedPolicyArns")
                (or_introl eq_refl) (get_properties resource_object)
                ["Resources"; resource_name; "Properties"]%list cfn) as Hcheck.
  cbn [limit_check limit_property limit_threshold limit_message] in Hcheck.
  rewrite Hpres in Hcheck.
  apply (f_equal fst) in Hcheck. cbn [fst] in Hcheck.
  assert (Hin :
    In (mkRuleMatch ["Resources"; resource_name; "Properties"; "ManagedPolicyArns"]
          "IAM resources cannot have more than 10 ManagedPolicyArns")
       (flat_map
          (branch_matches "ManagedPolicyArns" 10
             "IAM resources cannot have more than 10 ManagedPolicyArns"
             ["Resources"; resource_name; "Properties"]%list)
          (branches_of cfn (get_properties resource_object)))).
  { apply in_flat_map. exists ps. split; [exact Hps |].
    unfold branch_matches. rewrite Hget, Hsc.
    apply Nat.ltb_lt in Hlen. rewrite Hlen. now left. }
  destruct Hty as [<- | [<- | [<- | []]]].
  - exact (match_includes cfn ms "AWS::IAM::User"
             [check_managed_policy_arns; check_user_groups]
             check_managed_policy_arns resource_name resource_object _ Hms
             (or_introl eq_refl) (or_introl eq_refl) Hres Hcheck _ Hin).
  - exact (match_includes cfn ms "AWS::IAM::Group"
             [check_managed_policy_arns]
             check_managed_policy_arns resource_name resource_object _ Hms
             (or_intror (or_introl eq_refl)) (or_introl eq_refl) Hres Hcheck
             _ Hin).
  - exact (match_includes cfn ms "AWS::IAM::Role"
             [check_managed_policy_arns; check_role_assume_role_policy_document]
             check_managed_policy_arns resource_name resource_object _ Hms
             (or_intror (or_intror (or_introl eq_refl))) (or_introl eq_refl)
             Hres Hcheck _ Hin).
Qed.

Lemma managed_policy_message_fixed_witness :
  In (mkRuleMatch ["Resources"; "MyUser"; "Properties"; "ManagedPolicyArns"]
        "IAM resources cannot have more than 10 ManagedPolicyArns")
     [mkRuleMatch ["Resources"; "MyUser"; "Properties"; "ManagedPolicyArns"]
        "IAM resources cannot have more than 10 ManagedPolicyArns"].
Proof.
  apply (managed_policy_message_fixed "AWS::IAM::User" example_user_template
           "MyUser" (mkResource "AWS::IAM::User" (Some (VDict example_user_properties)))
           (mkPropertySet example_user_properties None) (example_arns 11)).
  - simpl. auto.
  - simpl. auto.
  - reflexivity.
  - simpl. auto.
  - reflexivity.
  - reflexivity.
  - simpl. lia.
  - reflexivity.
Defined.

(** * Further properties *)

(** ** The violations of a list check, in order *)

Lemma branch_matches_over_limit name threshold base path ps :
  branch_matches name threshold base path ps =
  if over_limit name threshold ps then
    [mkRuleMatch (path ++ [name]) (branch_message base (Scenario ps))]
  else [].
Proof.
  unfold branch_matches, over_limit.
  now destruct (dict_get (Object ps) name) as [[] |].
Qed.

Lemma flat_map_branch_matches name threshold base path branches :
  flat_map (branch_matches name threshold base path) branches =
  map (fun ps => mkRuleMatch (path ++ [name]) (branch_message base (Scenario ps)))
    (filter (over_limit name threshold) branches).
Proof.
  induction branches as [| ps rest IH]; [reflexivity |].
  cbn [flat_map filter]. rewrite IH, branch_matches_over_limit.
  now destruct (over_limit name threshold ps).
Qed.

(** X1: a list check whose property is present returns, in the order of the
    branches, one violation for each branch that has a list longer than the
    limit, and nothing else: there are as many violations as such branches,
    never more than there are branches. *)
Theorem list_limit_violations (lim : list_limit) properties path cfn :
  In lim list_limits ->
  dict_contains (limit_property lim) properties = true ->
  exists ms,
    fst (limit_check lim (VDict properties) path cfn) = inr ms /\
    ms = map (fun ps =>
                mkRuleMatch (path ++ [limit_property lim])
                  (match Scenario ps with
                   | None => limit_message lim
                   | Some scenario =>
                       format (limit_message lim ++ " when {0}")
                         (scenario_text scenario)
                   end))
           (filter (over_limit (limit_property lim) (limit_threshold lim))
              (branches_of cfn (VDict properties))) /\
    List.length ms <= List.length (branches_of cfn (VDict properties)).
Proof.
  intros Hin Hpres. rewrite (list_limit_present lim _ _ _ Hin Hpres).
  eexists. split; [reflexivity |]. rewrite flat_map_branch_matches.
  split; [reflexivity |].
  rewrite length_map. apply filter_length_le.
Qed.

Lemma list_limit_violations_witness :
  exists ms,
    fst (check_managed_policy_arns (VDict example_user_properties)
           ["Resources"; "MyUser"; "Properties"]%list example_branching_template)
      = inr ms /\
    ms = map (fun ps =>
                mkRuleMatch
                  ["Resources"; "MyUser"; "Properties"; "ManagedPolicyArns"]
                  (match Scenario ps with
                   | None =>
                       "IAM resources cannot have more than 10 ManagedPolicyArns"
                   | Some scenario =>
                       format
                         "IAM resources cannot have more than 10 ManagedPolicyArns when {0}"
                         (scenario_text scenario)
                   end))
           [mkPropertySet [("ManagedPolicyArns", VList (example_arns 11))]
              (Some [("IsProd", true)])] /\
    List.length ms <= 2.
Proof.
  apply (list_limit_violations
           (mkListLimit check_managed_policy_arns "ManagedPolicyArns" 10
              "IAM resources cannot have more than 10 ManagedPolicyArns")
           example_user_properties ["Resources"; "MyUser"; "Properties"]%list
           example_branching_template).
  - simpl. auto.
  - reflexivity.
Defined.

(** ** A list check looks at lengths only *)

Lemma branch_matches_same_length name threshold base path ps1 ps2 :
  Scenario ps1 = Scenario ps2 ->
  list_length_of name ps1 = list_length_of name ps2 ->
  branch_matches name threshold base path ps1 =
  branch_matches name threshold base path ps2.
Proof.
  unfold branch_matches, list_length_of. intros -> Hlen.
  destruct (dict_get (Object ps1) name) as [[] |];
    destruct (dict_get (Object ps2) name) as [[] |];
    try reflexivity; try discriminate.
  now injection Hlen as ->.
Qed.

(** X2: a list check depends on the branches only through their scenarios
    and the lengths of their lists: two templates whose branches agree, one
    by one, on the scenario and on the length of the list (or on having no
    list) get the same violations, whatever the entries of the lists are. *)
Theorem list_limit_ignores_entries (lim : list_limit) properties path cfn1 cfn2 :
  In lim list_limits ->
  Forall2 (fun ps1 ps2 =>
             Scenario ps1 = Scenario ps2 /\
             list_length_of (limit_property lim) ps1
             = list_length_of (limit_property lim) ps2)
    (branches_of cfn1 (VDict properties)) (branches_of cfn2 (VDict properties)) ->
  fst (limit_check lim (VDict properties) path cfn1)
  = fst (limit_check lim (VDict properties) path cfn2).
Proof.
  intros Hin Hsame. rewrite !(list_limit_shape lim Hin).
  destruct (negb (dict_contains (limit_property lim) properties));
    [reflexivity |].
  cbn [fst]. f_equal.
  induction Hsame as [| ps1 ps2 r1 r2 [Hsc Hlen] _ IH]; [reflexivity |].
  cbn [flat_map]. rewrite IH.
  now rewrite (branch_matches_same_length _ _ _ _ ps1 ps2 Hsc Hlen).
Qed.

Lemma list_limit_ignores_entries_witness :
  fst (check_managed_policy_arns (VDict example_user_properties)
         ["Resources"; "MyUser"; "Properties"]%list example_branching_template)
  = fst (check_managed_policy_arns (VDict example_user_properties)
           ["Resources"; "MyUser"; "Properties"]%list
           (with_branches example_user_template example_other_branches)).
Proof.
  apply (list_limit_ignores_entries
           (mkListLimit check_managed_policy_arns "ManagedPolicyArns" 10
              "IAM resources cannot have more than 10 ManagedPolicyArns")).
  - simpl. auto.
  - repeat constructor.
Defined.

(** ** Where the violations of [match_] come from *)

Lemma collect_in {A B} (f : A -> M (list B)) (xs : list A) ms m :
  fst (collect f xs) = inr ms -> In m ms ->
  exists x l, In x xs /\ fst (f x) = inr l /\ In m l.
Proof.
  intros Hc Hm. destruct (collect_inr _ _ _ Hc) as [Hall ->].
  apply in_flat_map in Hm. destruct Hm as [x [Hx Hm]].
  destruct (Hall x Hx) as [l Hl]. rewrite (value_of_inr _ _ Hl) in Hm.
  exists x, l. auto.
Qed.

Lemma match_in_result cfn ms m :
  fst (match_ cfn) = inr ms -> In m ms ->
  exists resource_type check_list (check : check_fn) resource_name
         resource_object found,
    In (resource_type, check_list) types /\
    In check check_list /\
    In (resource_name, resource_object) (resources_by_type cfn resource_type) /\
    fst (check (get_properties resource_object)
           ["Resources"; resource_name; "Properties"]%list cfn) = inr found /\
    In m found.
Proof.
  rewrite match_collect. intros Hms Hm.
  destruct (collect_in _ _ _ _ Hms Hm) as [[ty checks] [l1 [Hty [H1 Hm1]]]].
  rewrite fst_get_resources in H1.
  destruct (collect_in _ _ _ _ H1 Hm1) as [[name r] [l2 [Hres [H2 Hm2]]]].
  destruct (collect_in _ _ _ _ H2 Hm2) as [check [found [Hcheck [H3 Hm3]]]].
  exists ty, checks, check, name, r, found. auto 6.
Qed.

(** X3: when [match_] returns, a violation is in its result exactly when
    one of the checks of a resource type returned it for one of the resources
    the template gave for that type: nothing is lost and nothing is added. *)
Theorem match_collects_exactly cfn ms :
  fst (match_ cfn) = inr ms ->
  forall m,
    In m ms <->
    exists resource_type check_list (check : check_fn) resource_name
           resource_object found,
      In (resource_type, check_list) types /\
      In check check_list /\
      In (resource_name, resource_object)
        (resources_by_type cfn resource_type) /\
      fst (check (get_properties resource_object)
             ["Resources"; resource_name; "Properties"]%list cfn) = inr found /\
      In m found.
Proof.
  intros Hms m. split.
  - exact (match_in_result cfn ms m Hms).
  - intros [ty [checks [check [name [r [found [Hty [Hcheck [Hres [Hf Hm]]]]]]]]]].
    exact (match_includes cfn ms ty checks check name r found Hms Hty Hcheck
             Hres Hf m Hm).
Qed.

Lemma match_collects_exactly_witness :
  In (mkRuleMatch ["Resources"; "MyUser"; "Properties"; "ManagedPolicyArns"]
        "IAM resources cannot have more than 10 ManagedPolicyArns")
     [mkRuleMatch ["Resources"; "MyUser"; "Properties"; "ManagedPolicyArns"]
        "IAM resources cannot have more than 10 ManagedPolicyArns"]
  <->
  exists resource_type check_list (check : check_fn) resource_name
         resource_object found,
    In (resource_type, check_list) types /\
    In check check_list /\
    In (resource_name, resource_object)
      (resources_by_type example_user_template resource_type) /\
    fst (check (get_properties resource_object)
           ["Resources"; resource_name; "Properties"]%list
           example_user_template) = inr found /\
    In (mkRuleMatch ["Resources"; "MyUser"; "Properties"; "ManagedPolicyArns"]
          "IAM resources cannot have more than 10 ManagedPolicyArns") found.
Proof.
  apply (match_collects_exactly example_user_template). reflexivity.
Defined.

Lemma list_limit_found (lim : list_limit) properties prefix cfn found m :
  In lim list_limits ->
  fst (limit_check lim properties prefix cfn) = inr found ->
  In m found ->
  py_contains (limit_property lim) properties = inr true /\
  path m = (prefix ++ [limit_property lim])%list /\
  exists rest, message m = limit_message lim ++ rest.
Proof.
  intros Hin Hf Hm. rewrite (list_limit_general lim Hin) in Hf.
  destruct (py_contains (limit_property lim) properties) as [e | []];
    [discriminate | | injection Hf as <-; contradiction].
  injection Hf as <-. split; [reflexivity |].
  apply in_flat_map in Hm. destruct Hm as [ps [_ Hm]].
  rewrite branch_matches_over_limit in Hm.
  destruct (over_limit _ _ ps); [| contradiction].
  destruct Hm as [<- | []]. split; [reflexivity |]. cbn [message].
  destruct (Scenario ps) as [scenario |].
  - rewrite (branch_message_some lim scenario Hin). eauto.
  - exists "". cbn [branch_message]. now rewrite string_app_nil_r.
Qed.

Lemma check_role_found properties prefix cfn found m :
  fst (check_role_assume_role_policy_document properties prefix cfn)
    = inr found ->
  In m found ->
  py_contains "AssumeRolePolicyDocument" properties = inr true /\
  path m = (prefix ++ ["AssumeRolePolicyDocument"])%list /\
  message m = "Role trust policy JSON text cannot be longer than 2048 characters".
Proof.
  rewrite check_role_general.
  destruct (py_contains "AssumeRolePolicyDocument" properties) as [e | []];
    [discriminate | | intros [= <-] []].
  destruct (py_subscript properties "AssumeRolePolicyDocument")
    as [e | document]; [discriminate |].
  destruct (json_dumps _serialize_date document) as [e | text];
    [discriminate |].
  destruct (Nat.ltb 2048 (String.length text)); intros [= <-] Hm;
    [| contradiction].
  destruct Hm as [<- | []]. auto.
Qed.

(** X4: every violation [match_] returns points into the template: its path
    is Resources, the name of a resource the template gave for one of the
    four types, Properties, and a property that one of the checks of that
    type reads and that the resource has; its message begins with the
    message of that check. *)
Theorem match_violation_origin cfn ms m :
  fst (match_ cfn) = inr ms ->
  In m ms ->
  exists resource_type property base resource_name resource_object rest,
    In (resource_type, property, base) violation_kinds /\
    In (resource_name, resource_object)
      (resources_by_type cfn resource_type) /\
    py_contains property (get_properties resource_object) = inr true /\
    path m = ["Resources"; resource_name; "Properties"; property]%list /\
    message m = base ++ rest.
Proof.
  intros Hms Hm.
  destruct (match_in_result cfn ms m Hms Hm)
    as [ty [checks [check [name [r [found [Hty [Hcheck [Hres [Hf Hin]]]]]]]]]].
  pose (mpa := mkListLimit check_managed_policy_arns "ManagedPolicyArns" 10
                 "IAM resources cannot have more than 10 ManagedPolicyArns").
  pose (ipr := mkListLimit check_instance_profile_roles "Roles" 1
                 "InstanceProfile can only have one role attached").
  pose (ug := mkListLimit check_user_groups "Groups" 10
                "User can be a member of maximum 10 groups").
  destruct Hty as [H | [H | [H | [H | []]]]]; injection H as <- <-;
    repeat (destruct Hcheck as [<- | Hcheck]); try contradiction.
  - destruct (list_limit_found mpa _ _ _ _ _ (or_introl eq_refl) Hf Hin)
      as [Hc [Hp [rest Hmsg]]].
    exists "AWS::IAM::User", "ManagedPolicyArns", (limit_message mpa), name, r,
      rest. simpl. auto 10.
  - destruct (list_limit_found ug _ _ _ _ _
                (or_intror (or_intror (or_introl eq_refl))) Hf Hin)
      as [Hc [Hp [rest Hmsg]]].
    exists "AWS::IAM::User", "Groups", (limit_message ug), name, r, rest.
    simpl. auto 10.
  - destruct (list_limit_found mpa _ _ _ _ _ (or_introl eq_refl) Hf Hin)
      as [Hc [Hp [rest Hmsg]]].
    exists "AWS::IAM::Group", "ManagedPolicyArns", (limit_message mpa), name, r,
      rest. simpl. auto 10.
  - destruct (list_limit_found mpa _ _ _ _ _ (or_introl eq_refl) Hf Hin)
      as [Hc [Hp [rest Hmsg]]].
    exists "AWS::IAM::Role", "ManagedPolicyArns", (limit_message mpa), name, r,
      rest. simpl. auto 10.
  - destruct (check_role_found _ _ _ _ _ Hf Hin) as [Hc [Hp Hmsg]].
    exists "AWS::IAM::Role", "AssumeRolePolicyDocument",
      "Role trust policy JSON text cannot be longer than 2048 characters",
      name, r, "".
    rewrite string_app_nil_r. simpl. auto 10.
  - destruct (list_limit_found ipr _ _ _ _ _
                (or_intror (or_introl eq_refl)) Hf Hin)
      as [Hc [Hp [rest Hmsg]]].
    exists "AWS::IAM::InstanceProfile", "Roles", (limit_message ipr), name, r,
      rest. simpl. auto 10.
Qed.

Lemma match_violation_origin_witness :
  exists resource_type property base resource_name resource_object rest,
    In (resource_type, property, base) violation_kinds /\
    In (resource_name, resource_object)
      (resources_by_type example_conditional_template resource_type) /\
    py_contains property (get_properties resource_object) = inr true /\
    ["Resources"; "MyUser"; "Properties"; "ManagedPolicyArns"]%list
    = ["Resources"; resource_name; "Properties"; property]%list /\
    format "IAM resources cannot have more than 10 ManagedPolicyArns when {0}"
      (scenario_text [("IsProd", true)])
    = base ++ rest.
Proof.
  apply (match_violation_origin example_conditional_template
           [mkRuleMatch
              ["Resources"; "MyUser"; "Properties"; "ManagedPolicyArns"]
              (format
                 "IAM resources cannot have more than 10 ManagedPolicyArns when {0}"
                 (scenario_text [("IsProd", true)]))]
           (mkRuleMatch
              ["Resources"; "MyUser"; "Properties"; "ManagedPolicyArns"]
              (format
                 "IAM resources cannot have more than 10 ManagedPolicyArns when {0}"
                 (scenario_text [("IsProd", true)])))).
  - reflexivity.
  - simpl. auto.
Defined.

(** ** What [match_] asks the template *)

Lemma snd_bind {A B} (m : M A) (f : A -> M B) :
  snd (bind m f) =
  match fst m with
  | inl _ => snd m
  | inr a => (snd m ++ snd (f a))%list
  end.
Proof.
  destruct m as [[e | a] log]; simpl; [reflexivity |].
  now destruct (f a).
Qed.

Lemma match_check_type (cfn : Template) :
  match_ cfn = collect (check_type cfn) types.
Proof. exact (match_collect cfn). Qed.

Lemma collect_log_in {A B} (f : A -> M (list B)) (xs : list A) e :
  In e (snd (collect f xs)) -> exists x, In x xs /\ In e (snd (f x)).
Proof.
  induction xs as [| x rest IH]; cbn [collect]; [intros [] |].
  rewrite snd_bind. destruct (fst (f x)) as [e' | found].
  - intros He. exists x. split; [now left | exact He].
  - rewrite snd_bind. intros He. apply in_app_or in He.
    destruct He as [He | He]; [exists x; split; [now left | exact He] |].
    assert (Hrest : In e (snd (collect f rest))).
    { destruct (fst (collect f rest)); [exact He |].
      cbn [ret snd] in He. now rewrite app_nil_r in He. }
    destruct (IH Hrest) as [y [Hy Hey]]. exists y. split; [now right | exact Hey].
Qed.

Lemma list_limit_log (lim : list_limit) properties path cfn :
  In lim list_limits ->
  snd (limit_check lim properties path cfn) =
  match py_contains (limit_property lim) properties with
  | inr true => [GetObjectWithoutConditions properties]
  | _ => []
  end.
Proof.
  intros Hin. rewrite (list_limit_general lim Hin).
  now destruct (py_contains (limit_property lim) properties) as [e | []].
Qed.

Lemma check_role_log properties path cfn :
  snd (check_role_assume_role_policy_document properties path cfn) = [].
Proof.
  rewrite check_role_general.
  destruct (py_contains "AssumeRolePolicyDocument" properties) as [e | []];
    try reflexivity.
  destruct (py_subscript properties "AssumeRolePolicyDocument")
    as [e | document]; [reflexivity |].
  destruct (json_dumps _serialize_date document) as [e | text]; reflexivity.
Qed.

(** The log of a check of [types]: nothing, or one resolution of the
    properties it was given, for a list property they have. *)
Lemma check_log (check : check_fn) resource_type check_list properties path cfn :
  In (resource_type, check_list) types ->
  In check check_list ->
  snd (check properties path cfn) = [] \/
  exists property base,
    In (resource_type, property, base) violation_kinds /\
    property <> "AssumeRolePolicyDocument" /\
    py_contains property properties = inr true /\
    snd (check properties path cfn) = [GetObjectWithoutConditions properties].
Proof.
  intros Hty Hcheck.
  pose (mpa := mkListLimit check_managed_policy_arns "ManagedPolicyArns" 10
                 "IAM resources cannot have more than 10 ManagedPolicyArns").
  pose (ipr := mkListLimit check_instance_profile_roles "Roles" 1
                 "InstanceProfile can only have one role attached").
  pose (ug := mkListLimit check_user_groups "Groups" 10
                "User can be a member of maximum 10 groups").
  assert (Hlim : forall lim, In lim list_limits ->
            In (resource_type, limit_property lim, limit_message lim)
              violation_kinds ->
            limit_property lim <> "AssumeRolePolicyDocument" ->
            snd (limit_check lim properties path cfn) = [] \/
            exists property base,
              In (resource_type, property, base) violation_kinds /\
              property <> "AssumeRolePolicyDocument" /\
              py_contains property properties = inr true /\
              snd (limit_check lim properties path cfn)
                = [GetObjectWithoutConditions properties]).
  { intros lim Hin Hkind Hne. rewrite (list_limit_log lim _ _ _ Hin).
    destruct (py_contains (limit_property lim) properties) as [e | []] eqn:Hc;
      [now left | right | now left].
    exists (limit_property lim), (limit_message lim). auto. }
  destruct Hty as [H | [H | [H | [H | []]]]]; injection H as <- <-;
    repeat (destruct Hcheck as [<- | Hcheck]); try contradiction.
  - apply (Hlim mpa); [simpl; auto | simpl; auto | discriminate].
  - apply (Hlim ug); [simpl; auto | simpl; auto | discriminate].
  - apply (Hlim mpa); [simpl; auto | simpl; auto 6 | discriminate].
  - apply (Hlim mpa); [simpl; auto | simpl; auto 6 | discriminate].
  - left. apply check_role_log.
  - apply (Hlim ipr); [simpl; auto | simpl; auto 8 | discriminate].
Qed.

(** X5: [match_] asks the template to resolve conditions only for the
    properties of a resource it was given for one of the four types, and only
    when these properties have ManagedPolicyArns, Groups or Roles, as the
    type has it; the trust policy of a role is never a reason to resolve. *)
Theorem match_resolves_only_list_properties cfn properties :
  In (GetObjectWithoutConditions properties) (snd (match_ cfn)) ->
  exists resource_type property base resource_name resource_object,
    In (resource_type, property, base) violation_kinds /\
    property <> "AssumeRolePolicyDocument" /\
    In (resource_name, resource_object)
      (resources_by_type cfn resource_type) /\
    properties = get_properties resource_object /\
    py_contains property properties = inr true.
Proof.
  rewrite match_check_type. intros He.
  destruct (collect_log_in _ _ _ He) as [[ty checks] [Hty H1]].
  unfold check_type in H1. rewrite snd_bind in H1.
  cbn [get_resources fst snd] in H1.
  destruct H1 as [H1 | H1]; [discriminate |].
  destruct (collect_log_in _ _ _ H1) as [[name r] [Hres H2]].
  destruct (collect_log_in _ _ _ H2) as [check [Hcheck H3]].
  destruct (check_log check ty checks (get_properties r)
              ["Resources"; name; "Properties"]%list cfn Hty Hcheck)
    as [Hnone | [property [base [Hkind [Hne [Hc Hlog]]]]]].
  - rewrite Hnone in H3. contradiction.
  - rewrite Hlog in H3. destruct H3 as [[= <-] | []].
    exists ty, property, base, name, r. auto 6.
Qed.

Lemma match_resolves_only_list_properties_witness :
  exists resource_type property base resource_name resource_object,
    In (resource_type, property, base) violation_kinds /\
    property <> "AssumeRolePolicyDocument" /\
    In (resource_name, resource_object)
      (resources_by_type example_user_template resource_type) /\
    VDict example_user_properties = get_properties resource_object /\
    py_contains property (VDict example_user_properties) = inr true.
Proof.
  apply (match_resolves_only_list_properties example_user_template).
  simpl. auto.
Defined.









(** X7: for a template with no resource of the four types, [match_]
    returns no violation; it has asked for the four types and for nothing
    else. *)
Theorem match_without_iam_resources (cfn : Template) :
  (forall resource_type,
     In resource_type
        ["AWS::IAM::User"; "AWS::IAM::Group"; "AWS::IAM::Role";
         "AWS::IAM::InstanceProfile"] ->
     resources_by_type cfn resource_type = []) ->
  match_ cfn =
  (inr [],
   [GetResources "AWS::IAM::User"; GetResources "AWS::IAM::Group";
    GetResources "AWS::IAM::Role"; GetResources "AWS::IAM::InstanceProfile"]).
Proof.
  intros Hnone. rewrite match_check_type. unfold types, check_type, get_resources.
  rewrite !collect_cons.
  rewrite !Hnone by (simpl; auto 6). reflexivity.
Qed.

Lemma match_without_iam_resources_witness :
  match_ example_empty_template =
  (inr [],
   [GetResources "AWS::IAM::User"; GetResources "AWS::IAM::Group";
    GetResources "AWS::IAM::Role"; GetResources "AWS::IAM::InstanceProfile"]).
Proof.
  apply (match_without_iam_resources example_empty_template).
  intros resource_type _. reflexivity.
Defined.

(** ** The size of a trust policy *)

Lemma string_length_app (s1 s2 : string) :
  String.length (s1 ++ s2) = String.length s1 + String.length s2.
Proof. induction s1 as [| c s1 IH]; simpl; [reflexivity | now rewrite IH]. Qed.




(** X8: the trust policy check measures a conditional document whole: for
    [{"Fn::If": [cond, a, b]}] the text is the texts of both documents and
    20 characters more, besides the condition name, so the check reports a
    violation as soon as the two texts together are longer than 2028
    characters, also when each document alone is within the limit. *)
Theorem trust_policy_conditional_whole properties path cfn cond a b ta tb :
  dict_get properties "AssumeRolePolicyDocument"
    = Some (conditional_policy cond a b) ->
  json_dumps _serialize_date a = inr ta ->
  json_dumps _serialize_date b = inr tb ->
  exists text,
    json_dumps _serialize_date (conditional_policy cond a b) = inr text /\
    String.length text =
      20 + String.length (escape_ascii cond) + String.length ta
      + String.length tb /\
    (2028 < String.length ta + String.length tb ->
     check_role_assume_role_policy_document (VDict properties) path cfn =
       (inr [mkRuleMatch (path ++ ["AssumeRolePolicyDocument"])
               "Role trust policy JSON text cannot be longer than 2048 characters"],
        [])).
Proof.
  intros Hdoc Ha Hb.
  assert (Htext : exists text,
            json_dumps _serialize_date (conditional_policy cond a b) = inr text /\
            String.length text =
              20 + String.length (escape_ascii cond) + String.length ta
              + String.length tb).
  { unfold conditional_policy. cbn [json_dumps]. rewrite Ha, Hb.
    eexists. split; [reflexivity |].
    unfold encode_basestring_ascii.
    repeat (rewrite string_length_app; cbn [String.length dquote escape_ascii]).
    simpl. lia. }
  destruct Htext as [text [Htext Hlen]]. exists text.
  split; [exact Htext |]. split; [exact Hlen |].
  intros Hover. rewrite check_role_shape, Hdoc, Htext.
  assert (Hlt : Nat.ltb 2048 (String.length text) = true)
    by (apply Nat.ltb_lt; lia).
  now rewrite Hlt.
Qed.

Lemma trust_policy_conditional_whole_witness :
  exists text,
    json_dumps _serialize_date
      (conditional_policy "IsProd" (example_trust_policy 1000)
         (example_trust_policy 1000)) = inr text /\
    String.length text = 20 + 6 + 1044 + 1044 /\
    (2028 < 1044 + 1044 ->
     check_role_assume_role_policy_document
       (VDict [("AssumeRolePolicyDocument",
         conditional_policy "IsProd" (example_trust_policy 1000)
           (example_trust_policy 1000))])
       ["Resources"; "MyRole"; "Properties"]%list example_empty_template =
       (inr [mkRuleMatch
               ["Resources"; "MyRole"; "Properties"; "AssumeRolePolicyDocument"]
               "Role trust policy JSON text cannot be longer than 2048 characters"],
        [])).
Proof.
  refine (trust_policy_conditional_whole
            [("AssumeRolePolicyDocument",
              conditional_policy "IsProd" (example_trust_policy 1000)
                (example_trust_policy 1000))]
            ["Resources"; "MyRole"; "Properties"]%list example_empty_template
            "IsProd" (example_trust_policy 1000) (example_trust_policy 1000)
            (match json_dumps _serialize_date (example_trust_policy 1000) with
             | inr t => t | inl _ => "" end)
            (match json_dumps _serialize_date (example_trust_policy 1000) with
             | inr t => t | inl _ => "" end)
            eq_refl _ _).
  - vm_compute. reflexivity.
  - vm_compute. reflexivity.
Defined.





(** ** Dates in a trust policy *)

Lemma string_app_assoc (s1 s2 s3 : string) :
  (s1 ++ s2) ++ s3 = s1 ++ s2 ++ s3.
Proof. induction s1 as [| c s1 IH]; simpl; [reflexivity | now rewrite IH]. Qed.

Lemma escape_ascii_app (s1 s2 : string) :
  escape_ascii (s1 ++ s2) = escape_ascii s1 ++ escape_ascii s2.
Proof.
  induction s1 as [| c s1 IH]; simpl; [reflexivity |].
  now rewrite IH, string_app_assoc.
Qed.

Lemma plain_pad_below (width bound n : nat) :
  forallb (plain_pad width) (seq 0 bound) = true ->
  n < bound ->
  String.length (zero_pad width n) = width /\
  escape_ascii (zero_pad width n) = zero_pad width n.
Proof.
  intros Hall Hn.
  assert (Hin : In n (seq 0 bound)) by (apply in_seq; lia).
  pose proof (proj1 (forallb_forall _ _) Hall n Hin) as H.
  unfold plain_pad in H. apply andb_true_iff in H. destruct H as [Hlen Hesc].
  split; [now apply Nat.eqb_eq | now apply String.eqb_eq].
Qed.

Lemma plain_pad_years : forallb (plain_pad 4) (seq 0 (100 * 100)) = true.
Proof. vm_compute. reflexivity. Qed.

Lemma plain_pad_two_digits : forallb (plain_pad 2) (seq 0 100) = true.
Proof. vm_compute. reflexivity. Qed.

(** X10: a date [datetime.date] can hold is serialized without failure as
    its ISO text of ten characters between quotes: it takes twelve
    characters of the text of the trust policy. *)
Theorem date_takes_twelve_characters (d : date) :
  valid_date d ->
  String.length (date_isoformat d) = 10 /\
  json_dumps _serialize_date (VDate d)
    = inr (dquote ++ date_isoformat d ++ dquote) /\
  String.length (dquote ++ date_isoformat d ++ dquote) = 12.
Proof.
  intros [Hy [Hm Hd]].
  destruct (plain_pad_below 4 (100 * 100) (year d) plain_pad_years) as [Ly Ey];
    [lia |].
  destruct (plain_pad_below 2 100 (month d) plain_pad_two_digits) as [Lm Em];
    [lia |].
  destruct (plain_pad_below 2 100 (day d) plain_pad_two_digits) as [Ld Ed];
    [lia |].
  assert (Hlen : String.length (date_isoformat d) = 10).
  { unfold date_isoformat. rewrite !string_length_app, Ly, Lm, Ld. reflexivity. }
  assert (Hesc : escape_ascii (date_isoformat d) = date_isoformat d).
  { unfold date_isoformat. rewrite !escape_ascii_app, Ey, Em, Ed. reflexivity. }
  split; [exact Hlen |]. split.
  - cbn [json_dumps _serialize_date]. unfold encode_basestring_ascii.
    now rewrite Hesc.
  - rewrite !string_length_app, Hlen. reflexivity.
Qed.

Lemma date_takes_twelve_characters_witness :
  String.length (date_isoformat (mkDate 2012 10 17)) = 10 /\
  json_dumps _serialize_date (VDate (mkDate 2012 10 17))
    = inr (dquote ++ date_isoformat (mkDate 2012 10 17) ++ dquote) /\
  String.length (dquote ++ date_isoformat (mkDate 2012 10 17) ++ dquote) = 12.
Proof.
  apply (date_takes_twelve_characters (mkDate 2012 10 17)).
  unfold valid_date. simpl. lia.
Defined.

(** * Two calls, one store *)

(** ** The store *)

Lemma update_at_length (sigma0 : Store.store) acc objs l :
  Store.update (sigma0 ++ acc :: objs)%list (List.length sigma0) l
  = (sigma0 ++ l :: objs)%list.
Proof.
  induction sigma0 as [| x rest IH]; [reflexivity |].
  cbn [app List.length Store.update]. now rewrite IH.
Qed.

Lemma nth_at_length (sigma0 : Store.store) acc objs :
  nth (List.length sigma0) (sigma0 ++ acc :: objs)%list [] = acc.
Proof.
  rewrite app_nth2 by lia. now rewrite Nat.sub_diag.
Qed.

Lemma store_bind_run {A B} (m : Store.S A) (f : A -> Store.S B) sigma r log
    sigma1 :
  m sigma = ((r, log), sigma1) ->
  Store.bind m f sigma =
  match r with
  | inl e => ((inl e, log), sigma1)
  | inr a =>
      match f a sigma1 with
      | ((r2, log2), sigma2) => ((r2, (log ++ log2)%list), sigma2)
      end
  end.
Proof. unfold Store.bind. intros ->. now destruct r. Qed.

(** ** The checks on the store *)

Lemma store_loop_appends {A} (g : A -> list RuleMatch) (body : A -> Store.S unit)
    (sigma : Store.store) :
  (forall x acc,
     body x (sigma ++ [acc])%list = (ret tt, (sigma ++ [acc ++ g x])%list)) ->
  forall xs acc,
    Store.for_each xs body (sigma ++ [acc])%list
    = (ret tt, (sigma ++ [acc ++ flat_map g xs])%list).
Proof.
  intros Hbody. induction xs as [| x rest IH]; intros acc;
    cbn [Store.for_each flat_map].
  - unfold Store.pure. now rewrite app_nil_r.
  - rewrite (store_bind_run _ _ _ _ _ _ (Hbody x acc)).
    rewrite IH. cbn [app]. now rewrite app_assoc.
Qed.

Lemma store_append_last sigma acc x :
  Store.append (List.length sigma) x (sigma ++ [acc])%list
  = (ret tt, (sigma ++ [acc ++ [x]])%list).
Proof.
  unfold Store.append. now rewrite nth_at_length, update_at_length.
Qed.

Ltac store_list_check Hgeneral :=
  cbn [limit_check limit_property limit_threshold limit_message] in Hgeneral;
  intros properties path cfn sigma;
  rewrite Hgeneral;
  try unfold Store.check_managed_policy_arns;
  try unfold Store.check_instance_profile_roles;
  try unfold Store.check_user_groups;
  unfold Store.bind at 1 2; unfold Store.new_list, Store.call at 1;
  unfold ret at 1; cbn beta iota;
  match goal with
  | |- context [py_contains ?name properties] =>
      destruct (py_contains name properties) as [e | []]
  end;
  unfold lift; cbn beta iota;
  [ reflexivity | | reflexivity ];
  cbn [negb];
  unfold Store.bind at 1 2; unfold Store.call, get_object_without_conditions;
  cbn beta iota;
  match goal with
  | |- context [branch_matches ?name ?threshold ?base path] =>
      match goal with
      | |- context [Store.for_each ?xs ?body (sigma ++ [[]])%list] =>
          let Hbody := fresh "Hbody" in
          assert (Hbody :
            forall ps acc,
              body ps (sigma ++ [acc])%list
              = (ret tt,
                 (sigma ++ [acc ++ branch_matches name threshold base path ps])%list));
          [ intros ps acc; unfold branch_matches;
            destruct (dict_get (Object ps) _) as [[] |];
            try (unfold Store.pure; now rewrite app_nil_r);
            destruct (Nat.ltb _ _);
            [ | unfold Store.pure; now rewrite app_nil_r ];
            destruct (Scenario ps); apply store_append_last
          | rewrite (store_loop_appends _ body sigma Hbody xs []);
            reflexivity ]
      end
  end.

Lemma store_check_managed_policy_arns :
  refines Store.check_managed_policy_arns check_managed_policy_arns.
Proof.
  pose proof (list_limit_general
                (mkListLimit check_managed_policy_arns "ManagedPolicyArns" 10
                   "IAM resources cannot have more than 10 ManagedPolicyArns")
                (or_introl eq_refl)) as Hgeneral.
  store_list_check Hgeneral.
Qed.

Lemma store_check_instance_profile_roles :
  refines Store.check_instance_profile_roles check_instance_profile_roles.
Proof.
  pose proof (list_limit_general
                (mkListLimit check_instance_profile_roles "Roles" 1
                   "InstanceProfile can only have one role attached")
                (or_intror (or_introl eq_refl))) as Hgeneral.
  store_list_check Hgeneral.
Qed.

Lemma store_check_user_groups :
  refines Store.check_user_groups check_user_groups.
Proof.
  pose proof (list_limit_general
                (mkListLimit check_user_groups "Groups" 10
                   "User can be a member of maximum 10 groups")
                (or_intror (or_intror (or_introl eq_refl)))) as Hgeneral.
  store_list_check Hgeneral.
Qed.

Lemma store_check_role_assume_role_policy_document :
  refines Store.check_role_assume_role_policy_document
    check_role_assume_role_policy_document.
Proof.
  intros properties path cfn sigma. rewrite check_role_general.
  unfold Store.check_role_assume_role_policy_document.
  unfold Store.bind at 1 2; unfold Store.new_list, Store.call at 1.
  unfold ret at 1; cbn beta iota.
  destruct (py_contains "AssumeRolePolicyDocument" properties) as [e | []];
    unfold lift; cbn beta iota; [reflexivity | | reflexivity].
  cbn [negb]. unfold Store.bind at 1; unfold Store.call at 1; cbn beta iota.
  destruct (py_subscript properties "AssumeRolePolicyDocument")
    as [e | document]; [reflexivity |].
  unfold Store.bind at 1; unfold Store.call at 1; cbn beta iota.
  destruct (json_dumps _serialize_date document) as [e | text]; [reflexivity |].
  destruct (Nat.ltb 2048 (String.length text)); [| reflexivity].
  unfold Store.bind. rewrite (store_append_last sigma []). reflexivity.
Qed.

(** ** The loops of [match_] on the store *)

Lemma store_for_each_adds {A B} (R : A -> B -> Prop) (sigma0 : Store.store)
    (body : A -> Store.S unit) (f : B -> M (list RuleMatch)) :
  (forall x y, R x y -> adds sigma0 (body x) (f y)) ->
  forall xs ys, Forall2 R xs ys ->
    adds sigma0 (Store.for_each xs body) (collect f ys).
Proof.
  intros Hbody xs ys Hxs.
  induction Hxs as [| x y xs ys Hxy _ IH]; intros acc objs.
  - exists acc, objs. split; [reflexivity |].
    cbn [collect ret fst]. intros found [= <-]. now rewrite app_nil_r.
  - cbn [Store.for_each collect].
    destruct (Hbody x y Hxy acc objs) as [acc1 [objs1 [Hrun Hacc1]]].
    rewrite (store_bind_run _ _ _ _ _ _ Hrun).
    rewrite fst_bind, snd_bind.
    destruct (fst (f y)) as [e | found].
    + exists acc1, objs1. split; [reflexivity | discriminate].
    + specialize (Hacc1 found eq_refl). subst acc1.
      destruct (IH (acc ++ found)%list objs1) as [acc2 [objs2 [Hrest Hacc2]]].
      rewrite Hrest. rewrite fst_bind, snd_bind.
      exists acc2, objs2.
      destruct (fst (collect f ys)) as [e | others].
      * split; [reflexivity | discriminate].
      * cbn [ret fst snd]. rewrite app_nil_r. split; [reflexivity |].
        intros found' [= <-]. rewrite (Hacc2 others eq_refl).
        now rewrite app_assoc.
Qed.

(** One pass of the innermost loop: a check is run and its list is added to
    [matches]. *)
Lemma store_check_adds (sigma0 : Store.store) (check_s : Store.check_fn)
    (check : check_fn) properties path cfn :
  refines check_s check ->
  adds sigma0
    (Store.bind (check_s properties path cfn)
       (fun found => Store.extend (List.length sigma0) found))
    (check properties path cfn).
Proof.
  intros Href acc objs.
  rewrite (store_bind_run _ _ _ _ _ _
             (Href properties path cfn (sigma0 ++ acc :: objs)%list)).
  destruct (check properties path cfn) as [[e | found] log]; cbn [fst snd].
  - exists acc, (objs ++ [value_of (inl e, log)])%list.
    split; [| discriminate]. now rewrite <- app_assoc.
  - exists (acc ++ found)%list, (objs ++ [found])%list.
    split; [| now intros found' [= <-]].
    unfold Store.extend. cbn [value_of fst ret].
    rewrite <- app_assoc. cbn [app].
    rewrite nth_at_length, update_at_length.
    replace (List.length (sigma0 ++ acc :: objs))
      with (List.length (sigma0 ++ acc :: objs) + 0) by lia.
    rewrite (app_assoc sigma0 (acc :: objs) [found]) at 1.
    rewrite (app_nth2_plus (sigma0 ++ acc :: objs) [found] [] 0).
    cbn [nth]. now rewrite app_nil_r.
Qed.

Lemma store_types_refine :
  Forall2 (fun entry_s entry =>
             fst entry_s = fst entry /\
             Forall2 refines (snd entry_s) (snd entry))
    Store.types types.
Proof.
  pose proof store_check_managed_policy_arns.
  pose proof store_check_instance_profile_roles.
  pose proof store_check_user_groups.
  pose proof store_check_role_assume_role_policy_document.
  repeat constructor; assumption.
Qed.

(** [match_] on the store does what [match_] to a list does: the same
    calls, the same exception; otherwise it returns the reference of the
    first object it made, which holds the same violations; the objects that
    were in the store are as they were. *)
Lemma store_match_refines (cfn : Template) (sigma : Store.store) :
  exists acc objs,
    Store.match_ cfn sigma =
    ((match fst (match_ cfn) with
      | inr _ => inr (List.length sigma)
      | inl e => inl e
      end,
      snd (match_ cfn)),
     (sigma ++ acc :: objs)%list) /\
    (forall ms, fst (match_ cfn) = inr ms -> acc = ms).
Proof.
  assert (Hloop :
    adds sigma
      (Store.for_each Store.types (fun '(resource_type, check_list) =>
         Store.bind (Store.call (get_resources cfn resource_type))
           (fun resources =>
              Store.for_each resources (fun '(resource_name, resource_object) =>
                Store.for_each check_list (fun check =>
                  Store.bind
                    (check (get_properties resource_object)
                       ["Resources"; resource_name; "Properties"]%list cfn)
                    (fun found => Store.extend (List.length sigma) found))))))
      (collect (check_type cfn) types)).
  { apply (store_for_each_adds _ sigma _ _) with (2 := store_types_refine).
    intros [ty checks_s] [ty' checks] [Hty Hchecks]. cbn [fst snd] in Hty, Hchecks.
    subst ty'. intros acc objs. unfold check_type.
    cbn beta iota. unfold Store.bind at 1; unfold Store.call at 1.
    unfold get_resources; cbn beta iota.
    rewrite fst_bind, snd_bind. cbn [fst snd].
    destruct (store_for_each_adds eq sigma
                (fun '(resource_name, resource_object) =>
                   Store.for_each checks_s (fun check =>
                     Store.bind
                       (check (get_properties resource_object)
                          ["Resources"; resource_name; "Properties"]%list cfn)
                       (fun found => Store.extend (List.length sigma) found)))
                (fun '(resource_name, resource_object) =>
                   collect
                     (fun check : check_fn =>
                        check (get_properties resource_object)
                          ["Resources"; resource_name; "Properties"]%list cfn)
                     checks)) with (xs := resources_by_type cfn ty)
                                   (ys := resources_by_type cfn ty)
                                   (acc := acc) (objs := objs)
      as [acc' [objs' [Hrun Hacc']]].
    - intros [name r] y <-.
      apply (store_for_each_adds refines sigma) with (2 := Hchecks).
      intros check_s check Href. now apply store_check_adds.
    - clear. induction (resources_by_type cfn ty); constructor; auto.
    - rewrite Hrun. exists acc', objs'. split; [reflexivity | exact Hacc']. }
  destruct (Hloop [] []) as [acc [objs [Hrun Hacc]]].
  exists acc, objs. unfold Store.match_.
  rewrite (store_bind_run _ _ sigma (inr (List.length sigma)) []
             (sigma ++ [[]])%list eq_refl).
  rewrite (store_bind_run _ _ _ _ _ _ Hrun).
  rewrite match_check_type. split.
  - destruct (fst (collect (check_type cfn) types)); [reflexivity |].
    unfold Store.pure. cbn. now rewrite app_nil_r.
  - intros ms Hms. exact (Hacc ms Hms).
Qed.

(** ** Two calls *)

(** C9: two calls of [match_] on the same template, the second on the store
    the first has left, make the same calls to the template and either raise
    the same exception or return two different list objects that hold the
    same violations in the same order; the second call leaves the list the
    first has returned, and every object that was in the store before, as it
    was: nothing a call builds is kept for the next one. *)
Theorem match_twice_same_violations (cfn : Template) (sigma0 : Store.store) :
  let first := Store.match_ cfn sigma0 in
  let second := Store.match_ cfn (snd first) in
  snd (fst first) = snd (fst second) /\
  firstn (List.length sigma0) (snd second) = sigma0 /\
  match fst (fst first), fst (fst second) with
  | inr r1, inr r2 =>
      r1 <> r2 /\
      nth r2 (snd second) [] = nth r1 (snd first) [] /\
      nth r1 (snd second) [] = nth r1 (snd first) [] /\
      fst (match_ cfn) = inr (nth r1 (snd first) [])
  | inl e1, inl e2 => e1 = e2 /\ fst (match_ cfn) = inl e1
  | _, _ => False
  end.
Proof.
  destruct (store_match_refines cfn sigma0) as [acc1 [objs1 [H1 Hacc1]]].
  destruct (store_match_refines cfn (sigma0 ++ acc1 :: objs1)%list)
    as [acc2 [objs2 [H2 Hacc2]]].
  cbv zeta. rewrite H1. cbn [fst snd]. rewrite H2. cbn [fst snd].
  split; [reflexivity |]. split.
  - rewrite <- app_assoc. rewrite firstn_app, Nat.sub_diag, firstn_all.
    cbn [firstn]. now rewrite app_nil_r.
  - destruct (fst (match_ cfn)) as [e | ms]; [split; reflexivity |].
    specialize (Hacc1 ms eq_refl). specialize (Hacc2 ms eq_refl). subst.
    split; [rewrite length_app; cbn [List.length]; lia |].
    rewrite !nth_at_length.
    split; [reflexivity |]. split; [| reflexivity].
    rewrite <- app_assoc. cbn [app]. apply nth_at_length.
Qed.
